(** * Verification of the STPS extension helpers (duckdb_helpers.py)

    The Python module locates an installed extension binary below
    [~/.duckdb/extensions/stps/] and loads it into a DuckDB session.  Its only
    decision logic is [_find_extension_binary]: list the base directory, keep
    the sub-directories whose name starts with [v], sort them in reverse
    order and return the first one that holds [stps.duckdb_extension].

    The embedding keeps the structure of the Python code: [pathlib] paths are
    lists of components (the POSIX flavour, compared by code point), the file
    system is reached only through the three [pathlib] calls the code makes
    ([exists], [is_dir], [iterdir]), every call may raise, and the helpers
    run in a small monad that threads the file system, records the calls
    made and propagates exceptions.  Which errors of the operating system
    [exists] and [is_dir] report as [False] rather than raise is decided
    inside [pathlib] and differs between Python releases; the file system
    record below leaves it open, so the results hold for each of them. *)

From Stdlib Require Import List String Ascii Bool Arith NArith ZArith Lia.
From Stdlib Require Import Permutation Sorted OrderedTypeEx.
Import ListNotations.
Local Open Scope string_scope.
Local Open Scope list_scope.

(* ------------------------------------------------------------------ *)
(** ** Paths ([pathlib.PurePosixPath]) *)

Module Path.

(** A path is the list of its components, outermost first. *)
Definition t : Type := list string.

(** [p / c] *)
Definition joinpath (p : t) (c : string) : t := p ++ [c].

(** [p.name]: the final component. *)
Definition name (p : t) : string := last p "".

(** [p.parent] *)
Definition parent (p : t) : t := removelast p.

(** Rich comparison of pure paths: the component lists are compared
    lexicographically, components by code point. *)
Fixpoint compare (p q : t) : comparison :=
  match p, q with
  | [], [] => Eq
  | [], _ :: _ => Lt
  | _ :: _, [] => Gt
  | a :: p', b :: q' =>
      match String.compare a b with
      | Eq => compare p' q'
      | c => c
      end
  end.

(** [p < q] *)
Definition ltb (p q : t) : bool :=
  match compare p q with Lt => true | _ => false end.

(** [p <= q] *)
Definition leb (p q : t) : bool :=
  match compare p q with Gt => false | _ => true end.

(** [str(p)]: the components joined by the separator; the root, when
    there is one ([/], or [//] which POSIX keeps apart), is the first
    component and is not followed by a separator. *)
Definition str (p : t) : string :=
  match p with
  | "/" :: tail => "/" ++ String.concat "/" tail
  | "//" :: tail => "//" ++ String.concat "/" tail
  | _ => String.concat "/" p
  end.

End Path.

Infix "//" := Path.joinpath (at level 40, left associativity).

(* ------------------------------------------------------------------ *)
(** ** Exceptions and outcomes *)

Inductive exn : Type :=
| FileNotFoundError (msg : string)
| NotADirectoryError (about : Path.t)
| PermissionError (about : Path.t)
| OSError (errno : nat)
| IOException (msg : string).          (* duckdb.IOException *)

Inductive outcome (A : Type) : Type :=
| Return (a : A)
| Raise (e : exn).
Arguments Return {A} a.
Arguments Raise {A} e.

Definition returned {A} (o : outcome A) : bool :=
  match o with Return _ => true | Raise _ => false end.

(** Truth of a call that returned [True]. *)
Definition holds (o : outcome bool) : bool :=
  match o with Return true => true | _ => false end.

(* ------------------------------------------------------------------ *)
(** ** The file system boundary

    The helpers touch the disk through three [pathlib] methods only.  Each
    is an observation of the current state: it returns a value or raises. *)

Record filesystem : Type := mkFS {
  fs_exists  : Path.t -> outcome bool;          (* Path.exists()  *)
  fs_is_dir  : Path.t -> outcome bool;          (* Path.is_dir()  *)
  fs_listdir : Path.t -> outcome (list string)  (* names yielded by Path.iterdir(), in the order of the OS *)
}.

(** The calls a run performs, in order. *)
Inductive call : Type :=
| Exists (p : Path.t)
| IsDir (p : Path.t)
| Iterdir (p : Path.t).

(** The exception a call raises on a given state, if any. *)
Definition raised (fs : filesystem) (c : call) : option exn :=
  match c with
  | Exists p => match fs_exists fs p with Raise e => Some e | Return _ => None end
  | IsDir p => match fs_is_dir fs p with Raise e => Some e | Return _ => None end
  | Iterdir p => match fs_listdir fs p with Raise e => Some e | Return _ => None end
  end.

(* ------------------------------------------------------------------ *)
(** ** The monad of the helpers: state, call log, exceptions *)

Record run (A : Type) : Type := mkRun {
  result : outcome A;
  disk   : filesystem;   (* the state after the run *)
  trace  : list call     (* the calls made, oldest first *)
}.
Arguments mkRun {A} _ _ _.
Arguments result {A} _.
Arguments disk {A} _.
Arguments trace {A} _.

Definition IO (A : Type) : Type := filesystem -> run A.

Definition ret {A} (a : A) : IO A := fun fs => mkRun (Return a) fs [].

Definition throw {A} (e : exn) : IO A := fun fs => mkRun (Raise e) fs [].

Definition bind {A B} (m : IO A) (k : A -> IO B) : IO B :=
  fun fs =>
    let r := m fs in
    match result r with
    | Return a =>
        let r' := k a (disk r) in
        mkRun (result r') (disk r') (trace r ++ trace r')
    | Raise e => mkRun (Raise e) (disk r) (trace r)
    end.

Notation "x <- m ;; k" := (bind m (fun x => k))
  (at level 61, m at next level, right associativity).

(** A call into a collaborator that does not touch the disk. *)
Definition lift {A} (o : outcome A) : IO A := fun fs => mkRun o fs [].

(** [p.exists()] *)
Definition exists_ (p : Path.t) : IO bool :=
  fun fs => mkRun (fs_exists fs p) fs [Exists p].

(** [p.is_dir()] *)
Definition is_dir (p : Path.t) : IO bool :=
  fun fs => mkRun (fs_is_dir fs p) fs [IsDir p].

(** [p.iterdir()]: the children as paths [p / name]. *)
Definition iterdir (p : Path.t) : IO (list Path.t) :=
  fun fs =>
    mkRun (match fs_listdir fs p with
           | Return names => Return (map (Path.joinpath p) names)
           | Raise e => Raise e
           end) fs [Iterdir p].

(* ------------------------------------------------------------------ *)
(** ** [list.sort] *)

(** Stable insertion with [<] only, as [list.sort] compares. *)
Fixpoint insert (x : Path.t) (l : list Path.t) : list Path.t :=
  match l with
  | [] => [x]
  | y :: l' => if Path.ltb y x then y :: insert x l' else x :: l
  end.

Definition sorted_asc (l : list Path.t) : list Path.t := fold_right insert [] l.

(** [l.sort(reverse=...)]: a reverse sort reverses, sorts, and reverses
    again, which keeps it stable. *)
Definition list_sort (reverse : bool) (l : list Path.t) : list Path.t :=
  if reverse then rev (sorted_asc (rev l)) else sorted_asc l.

(* ------------------------------------------------------------------ *)
(** ** duckdb_helpers.py *)

Definition artifact_filename : string := "stps.duckdb_extension".

(** [s.startswith(prefix)] *)
Definition startswith (s prefix : string) : bool := String.prefix prefix s.

(** The comprehension
    [[d for d in ds if d.is_dir() and d.name.startswith('v')]]. *)
Fixpoint version_dirs_of (ds : list Path.t) : IO (list Path.t) :=
  match ds with
  | [] => ret []
  | d :: ds' =>
      isd <- is_dir d ;;
      let keep := isd && startswith (Path.name d) "v" in
      rest <- version_dirs_of ds' ;;
      ret (if keep then d :: rest else rest)
  end.

(** The loop [for version_dir in version_dirs: ...] with its early return. *)
Fixpoint first_valid (version_dirs : list Path.t) : IO (option Path.t) :=
  match version_dirs with
  | [] => ret None
  | version_dir :: rest =>
      let ext_path := version_dir // artifact_filename in
      found <- exists_ ext_path ;;
      if found then ret (Some ext_path) else first_valid rest
  end.

Definition _find_extension_binary (extensions_base : Path.t) : IO (option Path.t) :=
  present <- exists_ extensions_base ;;
  if negb present then ret None else
  children <- iterdir extensions_base ;;
  version_dirs <- version_dirs_of children ;;
  match version_dirs with
  | [] => ret None
  | _ :: _ => first_valid (list_sort true version_dirs)
  end.

Definition extensions_base_of (home : Path.t) : Path.t :=
  home // ".duckdb" // "extensions" // "stps".

Definition fallback_path (home : Path.t) : Path.t :=
  extensions_base_of home // "v1.4.3" // "stps.duckdb_extension".

Definition nl : string := String (ascii_of_nat 10) EmptyString.

Definition not_installed_message (ext_path : Path.t) : string :=
  "STPS extension not found at " ++ Path.str ext_path ++ nl ++
  "Please install the extension first:" ++ nl ++
  "  macOS/Linux: ./scripts/install-extension.sh" ++ nl ++
  "  Windows:     scripts\install-extension.bat" ++ nl ++
  nl ++ "See docs/plans/2026-01-02-autoload-setup.md for details.".

Definition load_failure_message (ext_path : Path.t) (original : string) : string :=
  "Failed to load STPS extension from " ++ Path.str ext_path ++ nl ++
  "Original error: " ++ original ++ nl ++
  "This may indicate a DuckDB version mismatch." ++ nl ++
  "Try rebuilding the extension for your DuckDB version:" ++ nl ++
  "  ./scripts/build-for-version.sh $(duckdb --version | grep -oE 'v[0-9]+\.[0-9]+\.[0-9]+')" ++ nl ++
  "  ./scripts/install-extension.sh".

Section Driver.

(** The database driver.  [duckdb_connect] is the outcome of
    [duckdb.connect(str(database), config={'allow_unsigned_extensions': 'true'})]
    for the [database] the caller passes, [execute_load conn p] that of
    [conn.execute("LOAD '<p>'")].  The state threaded through the helpers is
    the part of the disk their [pathlib] calls read; what the driver itself
    writes (a database file it creates) is not part of it. *)
Variable Conn : Type.
Variable duckdb_connect : outcome Conn.
Variable execute_load : Conn -> Path.t -> outcome unit.

(** [Path.home()] *)
Variable home : Path.t.

Definition get_duckdb_connection : IO Conn :=
  conn <- lift duckdb_connect ;;
  let extensions_base := extensions_base_of home in
  detected <- _find_extension_binary extensions_base ;;
  ext_path <-
    match detected with
    | Some p => ret p
    | None =>
        let ext_path := extensions_base // "v1.4.3" // "stps.duckdb_extension" in
        present <- exists_ ext_path ;;
        if negb present
        then throw (FileNotFoundError (not_installed_message ext_path))
        else ret ext_path
    end ;;
  _ <- lift (match execute_load conn ext_path with
             | Raise (IOException e) =>
                 Raise (IOException (load_failure_message ext_path e))
             | o => o
             end) ;;
  ret conn.

End Driver.

Definition get_extension_version (home : Path.t) : IO (option string) :=
  ext_path <- _find_extension_binary (extensions_base_of home) ;;
  match ext_path with
  | Some p => ret (Some (Path.name (Path.parent p)))
  | None => ret None
  end.

Definition check_extension_installed (home : Path.t) : IO bool :=
  ext_path <- _find_extension_binary (extensions_base_of home) ;;
  ret (match ext_path with Some _ => true | None => false end).

(* ------------------------------------------------------------------ *)
(** ** A directory tree as a file system

    Used to run the helpers on concrete installations.  [same_name] is the
    name lookup of the volume: exact on case-sensitive volumes, up to case
    on the default volumes of Windows and macOS. *)

#[local] Set Warnings "-register-all".
Inductive tree : Type :=
| File
| Dir (entries : list (string * tree)).

Section TreeFS.

Variable same_name : string -> string -> bool.

Fixpoint lookup (t : tree) (p : Path.t) {struct p} : option tree :=
  match p with
  | [] => Some t
  | c :: p' =>
      match t with
      | File => None
      | Dir entries =>
          match find (fun e => same_name (fst e) c) entries with
          | Some e => lookup (snd e) p'
          | None => None
          end
      end
  end.

Definition tree_fs (t : tree) : filesystem :=
  {| fs_exists p :=
       Return (match lookup t p with Some _ => true | None => false end);
     fs_is_dir p :=
       Return (match lookup t p with Some (Dir _) => true | _ => false end);
     fs_listdir p :=
       match lookup t p with
       | Some (Dir entries) => Return (map fst entries)
       | Some File => Raise (NotADirectoryError p)
       | None => Raise (FileNotFoundError (Path.str p))
       end |}.

End TreeFS.

Definition lower_ascii (c : ascii) : ascii :=
  let n := nat_of_ascii c in
  if ((65 <=? n) && (n <=? 90))%nat then ascii_of_nat (n + 32) else c.

Fixpoint lower (s : string) : string :=
  match s with
  | EmptyString => EmptyString
  | String c s' => String (lower_ascii c) (lower s')
  end.

Definition posix_fs : tree -> filesystem := tree_fs String.eqb.

Definition caseless_fs : tree -> filesystem :=
  tree_fs (fun a b => String.eqb (lower a) (lower b)).

(** A state in which listing [p] is refused. *)
Definition unreadable (p : Path.t) (fs : filesystem) : filesystem :=
  {| fs_exists := fs_exists fs;
     fs_is_dir := fs_is_dir fs;
     fs_listdir q :=
       if list_eq_dec string_dec q p then Raise (PermissionError p)
       else fs_listdir fs q |}.

(** A state in which [is_dir] on [p] is refused, as for a link into a
    directory that may not be searched. *)
Definition is_dir_refused (p : Path.t) (fs : filesystem) : filesystem :=
  {| fs_exists := fs_exists fs;
     fs_is_dir q :=
       if list_eq_dec string_dec q p then Raise (PermissionError p)
       else fs_is_dir fs q;
     fs_listdir := fs_listdir fs |}.

(** [mkdirs p t]: the tree [t] placed at path [p] below the root. *)
Fixpoint mkdirs (p : Path.t) (t : tree) : tree :=
  match p with
  | [] => t
  | c :: p' => Dir [(c, mkdirs p' t)]
  end.

Definition version_dir_with_artifact : tree := Dir [(artifact_filename, File)].
Definition version_dir_empty : tree := Dir [("README.md", File)].

Definition home_u : Path.t := ["/"; "home"; "u"].
Definition stps : Path.t := extensions_base_of home_u.

(** Installations used below, as the trees an install script leaves. *)
Definition install (versions : list (string * tree)) : tree :=
  mkdirs stps (Dir versions).

Definition two_patch_levels : tree :=
  install [("v1.2.0", version_dir_with_artifact);
           ("v1.3.0", version_dir_with_artifact)].

Definition two_digit_minor : tree :=
  install [("v1.9.0", version_dir_with_artifact);
           ("v1.10.0", version_dir_with_artifact)].

Definition newest_incomplete : tree :=
  install [("v2.0.0", version_dir_empty);
           ("v1.9.0", version_dir_with_artifact)].

Definition single_version : tree :=
  install [("v1.4.3", version_dir_with_artifact)].

Definition with_strangers : tree :=
  install [("v1.9.0", version_dir_with_artifact);
           ("nightly", version_dir_with_artifact);
           ("v", File);
           ("notes.txt", File);
           ("v2.0.0", version_dir_empty)].

Definition without_strangers : tree :=
  install [("v1.9.0", version_dir_with_artifact);
           ("v2.0.0", version_dir_empty)].

Definition nothing_usable : tree :=
  install [("v2.0.0", version_dir_empty); ("notes.txt", File)].

Definition capital_tag : tree :=
  install [("V1.4.3", version_dir_with_artifact)].

Definition fresh_home : tree := mkdirs home_u (Dir []).

Definition artifact_is_a_directory : tree :=
  install [("v1.2.0", version_dir_with_artifact);
           ("v1.3.0", Dir [(artifact_filename, Dir [])])].

Definition base_is_a_file : tree := mkdirs stps File.


(* ------------------------------------------------------------------ *)
(** ** What a run computes, as pure functions of the state *)

(** The filter of the comprehension. *)
Definition keeps (fs : filesystem) (d : Path.t) : bool :=
  holds (fs_is_dir fs d) && startswith (Path.name d) "v".

(** The test of the loop. *)
Definition has_artifact (fs : filesystem) (d : Path.t) : bool :=
  holds (fs_exists fs (d // artifact_filename)).

(** The names of the children that the comprehension keeps. *)
Definition kept_names (fs : filesystem) (base : Path.t) (names : list string)
  : list string :=
  filter (fun n => keeps fs (base // n)) names.

(** The directories the loop visits: up to and including the first hit. *)
Fixpoint visited (fs : filesystem) (l : list Path.t) : list Path.t :=
  match l with
  | [] => []
  | d :: l' => if has_artifact fs d then [d] else d :: visited fs l'
  end.

(** The version directories in the order in which the loop takes them. *)
Definition ordered_dirs (fs : filesystem) (base : Path.t) (names : list string)
  : list Path.t :=
  list_sort true (map (Path.joinpath base) (kept_names fs base names)).

(** Every [is_dir] call of the comprehension returns. *)
Definition scan_ok (fs : filesystem) (base : Path.t) (names : list string) : bool :=
  forallb (fun n => returned (fs_is_dir fs (base // n))) names.

(** Every [exists] call on the artifact of a kept directory returns. *)
Definition probe_ok (fs : filesystem) (base : Path.t) (names : list string) : bool :=
  forallb (fun n => returned (fs_exists fs (base // n // artifact_filename)))
          (kept_names fs base names).

(** The path a call is made on. *)
Definition path_of (c : call) : Path.t :=
  match c with Exists p | IsDir p | Iterdir p => p end.

(** [p] lies strictly below [d]. *)
Definition below (d p : Path.t) : Prop := exists c rest, p = d ++ c :: rest.

(** [asc p q]: [q < p] does not hold. *)
Definition asc (p q : Path.t) : Prop := Path.ltb q p = false.
Definition desc (p q : Path.t) : Prop := asc q p.

(** The calls [_find_extension_binary base] may make on state [fs]: the
    existence check and the listing of [base], [is_dir] on a listed child,
    [exists] on the artifact of a listed child. *)
Definition allowed_call (fs : filesystem) (base : Path.t) (c : call) : Prop :=
  c = Exists base \/ c = Iterdir base \/
  exists names n,
    fs_listdir fs base = Return names /\ In n names /\
    (c = IsDir (base // n) \/ c = Exists (base // n // artifact_filename)).

(** A computation that only observes the disk: the state is left as it
    was, an exception raised by any call it made is its result, and it
    raises nothing of its own. *)
Definition observes {A} (m : IO A) : Prop :=
  forall fs,
    disk (m fs) = fs /\
    (forall c e, In c (trace (m fs)) -> raised fs c = Some e ->
                 result (m fs) = Raise e) /\
    (forall e, result (m fs) = Raise e ->
               exists c, In c (trace (m fs)) /\ raised fs c = Some e).

(** Descending order of tag names, by plain string comparison. *)
Definition name_desc (n n' : string) : Prop := (n' <=? n)%string = true.

(** [n] calls in a row, on whatever state the previous call left. *)
Fixpoint repeat_calls (n : nat) (base : Path.t) : IO (list (option Path.t)) :=
  match n with
  | O => ret []
  | S n' =>
      r <- _find_extension_binary base ;;
      rs <- repeat_calls n' base ;;
      ret (r :: rs)
  end.

(* ------------------------------------------------------------------ *)
(** ** test-extension.py

    The smoke test of a freshly built binary.  What is modelled is how the
    script ends (return value, [sys.exit] code, uncaught exception) and the
    two counters of the test loop.  Of what it writes to the console the
    text is not modelled, but every [print] is a call that may raise, made
    where the script makes it. *)

(** The values a query can hand back. *)
Inductive pyvalue : Type :=
| PyNone
| PyBool (b : bool)
| PyInt (z : Z)
| PyStr (s : string)
| PyUUID (hex : string).

(** [bool(v)] *)
Definition truthy (v : pyvalue) : bool :=
  match v with
  | PyNone => false
  | PyBool b => b
  | PyInt z => negb (Z.eqb z 0)
  | PyStr s => negb (String.eqb s "")
  | PyUUID _ => true
  end.

(** [a == b]; a [bool] compares as the integer it is. *)
Definition py_eq (a b : pyvalue) : bool :=
  match a, b with
  | PyNone, PyNone => true
  | PyBool x, PyBool y => Bool.eqb x y
  | PyBool x, PyInt z | PyInt z, PyBool x => Z.eqb (if x then 1 else 0) z
  | PyInt x, PyInt y => Z.eqb x y
  | PyStr x, PyStr y => String.eqb x y
  | PyUUID x, PyUUID y => String.eqb x y
  | _, _ => false
  end.

(** An entry of the list [tests]. *)
Record test_case : Type := mkTest {
  test_name : string;
  test_query : string;
  test_expected : pyvalue
}.

Definition tests : list test_case :=
  [ mkTest "IBAN Validierung"
           "SELECT stps_is_valid_iban('DE89370400440532013000') AS result"
           (PyBool true);
    mkTest "String Upper" "SELECT stps_upper('hello world') AS result"
           (PyStr "HELLO WORLD");
    mkTest "String Lower" "SELECT stps_lower('HELLO WORLD') AS result"
           (PyStr "hello world");
    mkTest "UUID Generierung" "SELECT stps_generate_uuid() AS result" PyNone ].

(** What escapes the script. *)
Inductive script_exn : Type :=
| CallFailed (e : exn)        (* raised by the driver, [os.path] or [print] *)
| ZeroDivisionError.

(** How [test_extension()] ends. *)
Inductive termination : Type :=
| Returns (code : nat)
| SystemExit (code : nat)
| Uncaught (e : script_exn).

(** A value interpolated into a printed line. *)
Inductive shown : Type :=
| ShownStr (s : string)
| ShownPath (p : Path.t)
| ShownValue (v : pyvalue)
| ShownExn (e : exn)
| ShownNat (n : nat).

(** The status a way of ending gives the process: an uncaught exception
    ends the interpreter with status 1. *)
Definition status_of (ending : termination) : nat :=
  match ending with
  | Returns code => code
  | SystemExit code => code
  | Uncaught _ => 1
  end.

Section SmokeTest.

(** Whether [import duckdb] at the top of the script succeeds. *)
Variable duckdb_importable : bool.

(** [os.path.exists] never raises; [os.path.getsize] may. *)
Variable os_path_exists : Path.t -> bool.
Variable os_path_getsize : Path.t -> outcome nat.

(** The driver: [duckdb.connect(':memory:')], [con.execute(q).fetchone()[0]],
    [con.execute("LOAD ...")] and the [fetchall()] of the catalog query. *)
Variable Session : Type.
Variable Row : Type.
Variable connect_memory : outcome Session.
Variable fetch_scalar : Session -> string -> outcome pyvalue.
Variable load_extension : Session -> Path.t -> outcome unit.
Variable fetch_functions : Session -> outcome (list Row).

(** [os.path.dirname(__file__)] *)
Variable script_dir : Path.t.

Definition built_extension_path : Path.t :=
  script_dir // "build" // "stps.duckdb_extension".

(** The verdict of one turn of the loop: the body of the [try], with the
    [except Exception] branch counting as a failure. *)
Definition test_passes (con : Session) (t : test_case) : bool :=
  match fetch_scalar con (test_query t) with
  | Return result =>
      match test_expected t with
      | PyNone => if truthy result then true else false
      | expected => if py_eq result expected then true else false
      end
  | Raise _ => false
  end.

(** One turn of the loop on the counters [(passed, failed)]. *)
Definition run_test (con : Session) (counts : nat * nat) (t : test_case)
  : nat * nat :=
  let (passed, failed) := counts in
  if test_passes con t then (passed + 1, failed) else (passed, failed + 1).

(** [passed = 0; failed = 0; for i, test in enumerate(tests, 1): ...] *)
Definition run_tests (con : Session) (ts : list test_case) : nat * nat :=
  fold_left (run_test con) ts (0, 0).

(** The console.  [print_ line args] is the [print] call at that line of
    the script with the values it interpolates; it may raise (a stream
    that cannot encode the text, a closed pipe).  [print_row] is the
    [print] of line 125 for one row of the catalog query. *)
Variable print_ : nat -> list shown -> outcome unit.
Variable print_row : Row -> outcome unit.

(** A [print] outside any [try], then the rest of the script. *)
Definition say (line : nat) (args : list shown) (k : termination) : termination :=
  match print_ line args with
  | Return _ => k
  | Raise e => Uncaught (CallFailed e)
  end.

Fixpoint say_all (lines : list (nat * list shown)) (k : termination) : termination :=
  match lines with
  | [] => k
  | (line, args) :: rest => say line args (say_all rest k)
  end.

(** Lines 90-103: the line printed for the value a query returned, and
    whether the test then counts as passed. *)
Definition verdict_line (t : test_case) (result : pyvalue)
  : nat * list shown * bool :=
  match test_expected t with
  | PyNone =>
      if truthy result then (93, [ShownValue result], true)
      else (96, [], false)
  | expected =>
      if py_eq result expected then (99, [ShownValue result], true)
      else (102, [ShownValue expected; ShownValue result], false)
  end.

(** The body of the [try] of one turn: the query, then the line of the
    verdict; the counter is touched only after the line is out. *)
Definition attempt (con : Session) (t : test_case) : outcome bool :=
  match fetch_scalar con (test_query t) with
  | Raise e => Raise e
  | Return result =>
      let '(line, args, ok) := verdict_line t result in
      match print_ line args with
      | Return _ => Return ok
      | Raise e => Raise e
      end
  end.

(** One turn with its [except Exception] branch: the counters after it,
    or what the [print] of the handler raised. *)
Definition turn (con : Session) (t : test_case) (passed failed : nat)
  : outcome (nat * nat) :=
  match attempt con t with
  | Return true => Return (passed + 1, failed)
  | Return false => Return (passed, failed + 1)
  | Raise e =>
      match print_ 105 [ShownExn e] with
      | Return _ => Return (passed, failed + 1)
      | Raise e' => Raise e'
      end
  end.

(** [for i, test in enumerate(tests, 1): ...] with its prints; [total] is
    [len(tests)]. *)
Fixpoint run_tests_printing (con : Session) (total i : nat) (ts : list test_case)
         (passed failed : nat) : outcome (nat * nat) :=
  match ts with
  | [] => Return (passed, failed)
  | t :: rest =>
      match print_ 86 [ShownNat i; ShownNat total; ShownStr (test_name t)] with
      | Raise e => Raise e
      | Return _ =>
          match turn con t passed failed with
          | Raise e => Raise e
          | Return (passed', failed') =>
              match print_ 107 [] with
              | Raise e => Raise e
              | Return _ => run_tests_printing con total (S i) rest passed' failed'
              end
          end
      end
  end.

Fixpoint print_rows (rows : list Row) : outcome unit :=
  match rows with
  | [] => Return tt
  | row :: rest =>
      match print_row row with
      | Return _ => print_rows rest
      | Raise e => Raise e
      end
  end.

(** The body of the second [try] (lines 116-128). *)
Definition list_functions (con : Session) : outcome unit :=
  match fetch_functions con with
  | Raise e => Raise e
  | Return [] =>
      match print_ 127 [] with
      | Return _ => print_ 128 []
      | Raise e => Raise e
      end
  | Return functions => print_rows functions
  end.

(** Lines 132-147; the percentage is computed before its line is
    printed. *)
Definition summary (passed failed : nat) : termination :=
  say_all [(132, []); (133, []); (134, []); (135, []);
           (136, [ShownNat passed]); (137, [ShownNat failed])]
    (if (passed + failed =? 0)%nat then Uncaught ZeroDivisionError else
     say_all [(138, [ShownNat passed; ShownNat failed]); (139, []); (140, [])]
       (if (failed =? 0)%nat then say 143 [] (Returns 0)
        else say 146 [] (Returns 1))).

(** Lines 110-147: the catalog listing in its [try], then the summary. *)
Definition report (con : Session) (passed failed : nat) : termination :=
  say_all [(110, []); (111, []); (112, []); (113, [])]
    (match list_functions con with
     | Return _ => summary passed failed
     | Raise e => say 130 [ShownExn e] (summary passed failed)
     end).

Definition test_extension : termination :=
  say_all [(19, []); (20, []); (21, []); (22, [])]
    (let extension_path := built_extension_path in
     if negb (os_path_exists extension_path) then
       say_all [(28, [ShownPath extension_path]); (29, []); (30, [])]
         (SystemExit 1)
     else
     say 33 [ShownPath extension_path]
       (match os_path_getsize extension_path with
        | Raise e => Uncaught (CallFailed e)
        | Return size =>
        say_all [(34, [ShownNat size]); (35, []); (38, [])]
          (match connect_memory with
           | Raise e => Uncaught (CallFailed e)
           | Return con =>
           match fetch_scalar con "SELECT version()" with
           | Raise e => Uncaught (CallFailed e)
           | Return version =>
           say_all [(40, [ShownValue version]); (41, []); (44, [])]
             (let load_failed e :=
                say_all [(49, []); (50, [ShownExn e])] (SystemExit 1) in
              (* the [try] holds the load and the line that confirms it *)
              match load_extension con extension_path with
              | Raise e => load_failed e
              | Return _ =>
              match print_ 47 [] with
              | Raise e => load_failed e
              | Return _ =>
              say_all [(53, []); (54, []); (55, []); (56, []); (57, [])]
                (match run_tests_printing con (List.length tests) 1 tests 0 0 with
                 | Raise e => Uncaught (CallFailed e)
                 | Return (passed, failed) => report con passed failed
                 end)
              end
              end)
           end
           end)
        end)).

(** The status the process ends with: [sys.exit(1)] when the import
    fails, else [sys.exit(test_extension())]. *)
Definition exit_status : nat :=
  if negb duckdb_importable then 1 else status_of test_extension.

End SmokeTest.

(** Drivers to run the script on: one that answers every query of [tests]
    as expected, and one whose [stps_upper] is missing. *)
Definition canned_answer (q : string) : outcome pyvalue :=
  match find (fun t => String.eqb (test_query t) q) tests with
  | Some t =>
      Return (match test_expected t with
              | PyNone => PyUUID "0b0e7c2a-5d4f-4c61-9a53-1f2e3d4c5b6a"
              | v => v
              end)
  | None => Return (PyStr "v1.4.3")
  end.


(** Consoles to run the script on: one that takes every line, one whose
    reader has gone after the first line (every later [print] raises
    [BrokenPipeError], errno 32), and one that refuses the line of a
    passed comparison only. *)
Definition console_ok (line : nat) (args : list shown) : outcome unit := Return tt.

Definition console_closed (line : nat) (args : list shown) : outcome unit :=
  if (20 <=? line)%nat then Raise (OSError 32) else Return tt.

Definition console_without_line_99 (line : nat) (args : list shown) : outcome unit :=
  if (line =? 99)%nat then Raise (OSError 32) else Return tt.

(* ------------------------------------------------------------------ *)
(** ** The order on paths *)

Lemma string_compare_refl (s : string) : String.compare s s = Eq.
Proof.
  induction s as [|c s IH]; simpl; [reflexivity|].
  unfold Ascii.compare. now rewrite N.compare_refl.
Qed.

Lemma string_lt_trans (a b c : string) :
  String.compare a b = Lt -> String.compare b c = Lt -> String.compare a c = Lt.
Proof.
  intros Hab Hbc.
  apply String_as_OT.cmp_lt. apply String_as_OT.lt_trans with b;
    now apply String_as_OT.cmp_lt.
Qed.

Lemma path_compare_refl (p : Path.t) : Path.compare p p = Eq.
Proof.
  induction p as [|a p IH]; simpl; [reflexivity|].
  now rewrite string_compare_refl.
Qed.

Lemma path_compare_antisym (p q : Path.t) :
  Path.compare p q = CompOpp (Path.compare q p).
Proof.
  revert q; induction p as [|a p IH]; intros [|b q]; simpl; try reflexivity.
  rewrite (String.compare_antisym a b).
  destruct (String.compare b a); simpl; auto.
Qed.

Lemma path_compare_eq (p q : Path.t) : Path.compare p q = Eq -> p = q.
Proof.
  revert q; induction p as [|a p IH]; intros [|b q]; simpl; try discriminate; auto.
  destruct (String.compare a b) eqn:E; try discriminate.
  apply String.compare_eq_iff in E. intros H. f_equal; auto.
Qed.

Lemma path_lt_trans (p q r : Path.t) :
  Path.compare p q = Lt -> Path.compare q r = Lt -> Path.compare p r = Lt.
Proof.
  revert q r; induction p as [|a p IH]; intros [|b q] [|c r]; simpl;
    try discriminate; auto.
  destruct (String.compare a b) eqn:Eab; try discriminate;
    destruct (String.compare b c) eqn:Ebc; try discriminate; intros H1 H2.
  - apply String.compare_eq_iff in Eab, Ebc. subst.
    rewrite string_compare_refl. eauto.
  - apply String.compare_eq_iff in Eab. subst. now rewrite Ebc.
  - apply String.compare_eq_iff in Ebc. subst. now rewrite Eab.
  - now rewrite (string_lt_trans _ _ _ Eab Ebc).
Qed.

Lemma path_compare_siblings (base : Path.t) (x y : string) :
  Path.compare (base // x) (base // y) = String.compare x y.
Proof.
  unfold Path.joinpath.
  induction base as [|a base IH]; simpl.
  - now destruct (String.compare x y).
  - now rewrite string_compare_refl.
Qed.

Lemma path_name_join (base : Path.t) (n : string) : Path.name (base // n) = n.
Proof. apply last_last. Qed.

Lemma path_parent_join (base : Path.t) (n : string) : Path.parent (base // n) = base.
Proof. apply removelast_last. Qed.

Lemma path_join_inj (base : Path.t) (m n : string) : base // m = base // n -> m = n.
Proof.
  intros H. apply (f_equal Path.name) in H. now rewrite !path_name_join in H.
Qed.

Lemma ltb_asym (p q : Path.t) : Path.ltb p q = true -> Path.ltb q p = false.
Proof.
  unfold Path.ltb. rewrite (path_compare_antisym q p).
  now destruct (Path.compare p q).
Qed.

Lemma asc_trans (p q r : Path.t) : asc p q -> asc q r -> asc p r.
Proof.
  unfold asc, Path.ltb. intros Hpq Hqr.
  destruct (Path.compare q p) eqn:E1; try discriminate.
  - apply path_compare_eq in E1. now subst.
  - destruct (Path.compare r q) eqn:E2; try discriminate.
    + apply path_compare_eq in E2. subst. now rewrite E1.
    + rewrite path_compare_antisym in E1, E2.
      assert (H1 : Path.compare p q = Lt) by now destruct (Path.compare p q).
      assert (H2 : Path.compare q r = Lt) by now destruct (Path.compare q r).
      rewrite path_compare_antisym, (path_lt_trans _ _ _ H1 H2). reflexivity.
Qed.

Lemma desc_siblings (base : Path.t) (m n : string) :
  desc (base // m) (base // n) <-> name_desc m n.
Proof.
  unfold desc, asc, name_desc, Path.ltb, String.leb.
  rewrite path_compare_siblings, (String.compare_antisym n m).
  destruct (String.compare m n); simpl; split; congruence.
Qed.

(* ------------------------------------------------------------------ *)
(** ** [list.sort(reverse=True)] sorts *)

Lemma insert_perm (x : Path.t) (l : list Path.t) : Permutation (insert x l) (x :: l).
Proof.
  induction l as [|y l IH]; simpl; [reflexivity|].
  destruct (Path.ltb y x); [|reflexivity].
  rewrite IH. apply perm_swap.
Qed.

Lemma sorted_asc_perm (l : list Path.t) : Permutation (sorted_asc l) l.
Proof.
  induction l as [|x l IH]; simpl; [reflexivity|].
  rewrite insert_perm. now constructor.
Qed.

Lemma insert_sorted (x : Path.t) (l : list Path.t) :
  StronglySorted asc l -> StronglySorted asc (insert x l).
Proof.
  induction 1 as [|y l Hs IH Hy]; simpl.
  - repeat constructor.
  - destruct (Path.ltb y x) eqn:E.
    + constructor; [exact IH|].
      rewrite (insert_perm x l). constructor; [|exact Hy].
      now apply ltb_asym.
    + constructor; [now constructor|].
      constructor; [exact E|].
      eapply Forall_impl; [|exact Hy].
      intros z Hz. now apply asc_trans with y.
Qed.

Lemma sorted_asc_sorted (l : list Path.t) : StronglySorted asc (sorted_asc l).
Proof.
  induction l as [|x l IH]; simpl; [constructor|now apply insert_sorted].
Qed.

Lemma sorted_snoc (R : Path.t -> Path.t -> Prop) (l : list Path.t) (x : Path.t) :
  StronglySorted R l -> Forall (fun y => R y x) l -> StronglySorted R (l ++ [x]).
Proof.
  induction 1 as [|y l Hs IH Hy]; intros Hx; simpl.
  - repeat constructor.
  - inversion Hx; subst. constructor; [now apply IH|].
    apply Forall_app; split; [exact Hy|now repeat constructor].
Qed.

Lemma sorted_rev (l : list Path.t) : StronglySorted asc l -> StronglySorted desc (rev l).
Proof.
  induction 1 as [|y l Hs IH Hy]; simpl; [constructor|].
  apply sorted_snoc; [exact IH|].
  apply Forall_rev. exact Hy.
Qed.

Lemma list_sort_reverse_perm (l : list Path.t) : Permutation (list_sort true l) l.
Proof.
  unfold list_sort.
  now rewrite <- Permutation_rev, sorted_asc_perm, <- Permutation_rev.
Qed.

Lemma list_sort_reverse_sorted (l : list Path.t) : StronglySorted desc (list_sort true l).
Proof. unfold list_sort. apply sorted_rev, sorted_asc_sorted. Qed.

Lemma desc_antisym (p q : Path.t) : desc p q -> desc q p -> p = q.
Proof.
  unfold desc, asc, Path.ltb. intros H1 H2.
  rewrite (path_compare_antisym q p) in H2.
  destruct (Path.compare p q) eqn:E; try discriminate.
  now apply path_compare_eq.
Qed.

(** The order is total and antisymmetric, so a list has one descending
    arrangement: whatever stable algorithm [list.sort] runs, it returns
    what [list_sort true] returns. *)
Lemma sorted_unique (l1 l2 : list Path.t) :
  StronglySorted desc l1 -> StronglySorted desc l2 -> Permutation l1 l2 -> l1 = l2.
Proof.
  revert l2. induction l1 as [|a l1 IH]; intros l2 H1 H2 Hp.
  - now apply Permutation_nil in Hp.
  - destruct l2 as [|b l2]; [now apply Permutation_sym, Permutation_nil in Hp|].
    apply StronglySorted_inv in H1 as [H1 Ha]. apply StronglySorted_inv in H2 as [H2 Hb].
    rewrite Forall_forall in Ha, Hb.
    assert (Hab : a = b).
    { assert (Hin1 : In a (b :: l2)) by (apply (Permutation_in _ Hp); now left).
      assert (Hin2 : In b (a :: l1))
        by (apply (Permutation_in _ (Permutation_sym Hp)); now left).
      destruct Hin1 as [->|Hin1]; [reflexivity|].
      destruct Hin2 as [->|Hin2]; [reflexivity|].
      apply desc_antisym; auto. }
    subst b. f_equal. apply IH; auto. now apply Permutation_cons_inv in Hp.
Qed.

Lemma list_sort_reverse_unique (l l' : list Path.t) :
  Permutation l' l -> StronglySorted desc l' -> l' = list_sort true l.
Proof.
  intros Hp Hs. apply sorted_unique; [exact Hs|apply list_sort_reverse_sorted|].
  now rewrite list_sort_reverse_perm.
Qed.

(** Over the children of one directory the order is that of the names. *)
Lemma sorted_children (base : Path.t) (ns : list string) :
  StronglySorted desc (map (Path.joinpath base) ns) -> StronglySorted name_desc ns.
Proof.
  induction ns as [|n ns IH]; simpl; intros H; [constructor|].
  apply StronglySorted_inv in H as [Hs Hn]. constructor; [now apply IH|].
  rewrite Forall_map in Hn. eapply Forall_impl; [|exact Hn].
  intros m Hm. now apply desc_siblings in Hm.
Qed.

(** A reordering of children of [base] is a list of children of [base]. *)
Lemma perm_children (base : Path.t) (ns : list string) (l : list Path.t) :
  Permutation l (map (Path.joinpath base) ns) ->
  exists ms, l = map (Path.joinpath base) ms /\ Permutation ms ns.
Proof.
  intros H. exists (map Path.name l). split.
  - rewrite map_map. rewrite <- (map_id l) at 1. apply map_ext_in.
    intros d Hd. apply (Permutation_in _ H) in Hd.
    apply in_map_iff in Hd as [n [<- _]]. now rewrite path_name_join.
  - apply (Permutation_map Path.name) in H. rewrite H, map_map.
    erewrite map_ext; [rewrite map_id; reflexivity|].
    intros n. apply path_name_join.
Qed.

(* ------------------------------------------------------------------ *)
(** ** Running the monad *)

Lemma bind_return {A B} (m : IO A) (k : A -> IO B) (fs : filesystem) (a : A) :
  result (m fs) = Return a ->
  bind m k fs =
  mkRun (result (k a (disk (m fs)))) (disk (k a (disk (m fs))))
        (trace (m fs) ++ trace (k a (disk (m fs)))).
Proof. intros H. unfold bind. now rewrite H. Qed.

Lemma bind_raise {A B} (m : IO A) (k : A -> IO B) (fs : filesystem) (e : exn) :
  result (m fs) = Raise e ->
  bind m k fs = mkRun (Raise e) (disk (m fs)) (trace (m fs)).
Proof. intros H. unfold bind. now rewrite H. Qed.

Lemma observes_ret {A} (a : A) : observes (ret a).
Proof.
  intros fs. simpl. repeat split; try contradiction; discriminate.
Qed.

Lemma observes_exists (p : Path.t) : observes (exists_ p).
Proof.
  intros fs. simpl. repeat split.
  - intros c e [<-|[]]. simpl. destruct (fs_exists fs p); congruence.
  - intros e H. exists (Exists p). simpl. rewrite H. auto.
Qed.

Lemma observes_is_dir (p : Path.t) : observes (is_dir p).
Proof.
  intros fs. simpl. repeat split.
  - intros c e [<-|[]]. simpl. destruct (fs_is_dir fs p); congruence.
  - intros e H. exists (IsDir p). simpl. rewrite H. auto.
Qed.

Lemma observes_iterdir (p : Path.t) : observes (iterdir p).
Proof.
  intros fs. simpl. repeat split.
  - intros c e [<-|[]]. simpl. destruct (fs_listdir fs p); congruence.
  - intros e H. exists (Iterdir p). simpl.
    destruct (fs_listdir fs p); [discriminate|]. split; [auto|congruence].
Qed.

Lemma observes_bind {A B} (m : IO A) (k : A -> IO B) :
  observes m -> (forall a, observes (k a)) -> observes (bind m k).
Proof.
  intros Hm Hk fs. destruct (Hm fs) as (Hd & Hp & Ho).
  destruct (result (m fs)) as [a|e] eqn:Er.
  - rewrite (bind_return _ _ _ _ Er). simpl. rewrite Hd.
    destruct (Hk a fs) as (Hd' & Hp' & Ho'). repeat split.
    + exact Hd'.
    + intros c e Hc Hr. apply in_app_or in Hc as [Hc|Hc].
      * specialize (Hp c e Hc Hr). discriminate.
      * now apply Hp' with c.
    + intros e He. destruct (Ho' e He) as (c & Hc & Hr).
      exists c. split; [apply in_or_app; now right|exact Hr].
  - rewrite (bind_raise _ _ _ _ Er). simpl. repeat split.
    + exact Hd.
    + intros c e' Hc Hr. specialize (Hp c e' Hc Hr). congruence.
    + intros e' [= <-]. now apply Ho.
Qed.

Lemma observes_version_dirs_of (ds : list Path.t) : observes (version_dirs_of ds).
Proof.
  induction ds as [|d ds IH]; simpl.
  - apply observes_ret.
  - apply observes_bind; [apply observes_is_dir|]. intros isd.
    apply observes_bind; [exact IH|]. intros rest. apply observes_ret.
Qed.

Lemma observes_first_valid (l : list Path.t) : observes (first_valid l).
Proof.
  induction l as [|d l IH]; simpl.
  - apply observes_ret.
  - apply observes_bind; [apply observes_exists|].
    intros [|]; [apply observes_ret|exact IH].
Qed.

Lemma observes_find_extension_binary (base : Path.t) :
  observes (_find_extension_binary base).
Proof.
  unfold _find_extension_binary.
  apply observes_bind; [apply observes_exists|]. intros [|]; simpl.
  - apply observes_bind; [apply observes_iterdir|]. intros children.
    apply observes_bind; [apply observes_version_dirs_of|].
    intros [|d l]; [apply observes_ret|apply observes_first_valid].
  - apply observes_ret.
Qed.

Lemma find_extension_binary_disk (base : Path.t) (fs : filesystem) :
  disk (_find_extension_binary base fs) = fs.
Proof. apply observes_find_extension_binary. Qed.

(** *** The comprehension *)

Lemma version_dirs_of_run (fs : filesystem) (base : Path.t) (names : list string) :
  scan_ok fs base names = true ->
  version_dirs_of (map (Path.joinpath base) names) fs =
  mkRun (Return (map (Path.joinpath base) (kept_names fs base names))) fs
        (map IsDir (map (Path.joinpath base) names)).
Proof.
  unfold scan_ok, kept_names.
  induction names as [|n names IH]; simpl; [reflexivity|].
  intros H. apply andb_prop in H as [Hn Hs]. specialize (IH Hs).
  unfold bind at 1. unfold is_dir at 1. simpl.
  destruct (fs_is_dir fs (base // n)) as [isd|e] eqn:E; [|discriminate].
  unfold bind. rewrite IH. simpl. rewrite app_nil_r.
  unfold keeps. rewrite E.
  destruct isd; simpl; [|reflexivity].
  now destruct (startswith (Path.name (base // n)) "v").
Qed.

Lemma version_dirs_of_trace (fs : filesystem) (ds : list Path.t) (c : call) :
  In c (trace (version_dirs_of ds fs)) -> exists d, In d ds /\ c = IsDir d.
Proof.
  induction ds as [|d ds IH]; simpl; [contradiction|].
  unfold bind at 1. unfold is_dir at 1. simpl.
  destruct (fs_is_dir fs d) as [isd|e]; simpl.
  - intros [<-|H]; [eauto|].
    assert (Hc : In c (trace (version_dirs_of ds fs))).
    { unfold bind in H.
      destruct (result (version_dirs_of ds fs)); simpl in H; [|exact H].
      now rewrite app_nil_r in H. }
    destruct (IH Hc) as (d' & Hd' & ->). eauto.
  - intros [<-|[]]. eauto.
Qed.

Lemma version_dirs_of_incl (fs : filesystem) (ds l : list Path.t) :
  result (version_dirs_of ds fs) = Return l -> incl l ds.
Proof.
  revert l. induction ds as [|d ds IH]; simpl; intros l.
  - intros [= <-]. apply incl_refl.
  - unfold bind at 1. unfold is_dir at 1. simpl.
    destruct (fs_is_dir fs d) as [isd|e]; simpl; [|discriminate].
    unfold bind.
    destruct (result (version_dirs_of ds fs)) as [rest|e]; simpl; [|discriminate].
    specialize (IH rest eq_refl).
    intros [= <-].
    destruct (isd && startswith (Path.name d) "v").
    + intros x [<-|Hx]; [now left|right; now apply IH].
    + now apply incl_tl.
Qed.

(** *** The loop *)

Lemma first_valid_run (fs : filesystem) (l : list Path.t) :
  forallb (fun d => returned (fs_exists fs (d // artifact_filename))) l = true ->
  first_valid l fs =
  mkRun (Return (option_map (fun d => d // artifact_filename)
                            (find (has_artifact fs) l)))
        fs
        (map (fun d => Exists (d // artifact_filename)) (visited fs l)).
Proof.
  induction l as [|d l IH]; simpl; [reflexivity|].
  intros H. apply andb_prop in H as [Hd Hl]. specialize (IH Hl).
  unfold bind, exists_. simpl. unfold has_artifact.
  destruct (fs_exists fs (d // artifact_filename)) as [[|]|e]; simpl;
    [reflexivity| |discriminate].
  now rewrite IH.
Qed.

Lemma first_valid_trace (fs : filesystem) (l : list Path.t) (c : call) :
  In c (trace (first_valid l fs)) ->
  exists d, In d l /\ c = Exists (d // artifact_filename).
Proof.
  induction l as [|d l IH]; simpl; [contradiction|].
  unfold bind, exists_. simpl.
  destruct (fs_exists fs (d // artifact_filename)) as [[|]|e]; simpl.
  - intros [<-|[]]. eauto.
  - intros [<-|H]; [eauto|]. destruct (IH H) as (d' & Hd' & ->). eauto.
  - intros [<-|[]]. eauto.
Qed.

(** The loop reads the state only at the artifacts of the directories it
    is given. *)
Lemma first_valid_ext (fs fs' : filesystem) (l : list Path.t) :
  (forall d, In d l ->
     fs_exists fs' (d // artifact_filename) = fs_exists fs (d // artifact_filename)) ->
  result (first_valid l fs') = result (first_valid l fs).
Proof.
  induction l as [|d l IH]; simpl; [reflexivity|]. intros H.
  unfold bind, exists_. simpl.
  rewrite (H d (or_introl eq_refl)).
  destruct (fs_exists fs (d // artifact_filename)) as [[|]|e]; simpl; auto.
Qed.

(** A visit stops at the first hit: the directories seen are a prefix of
    the list, and none but the last holds the artifact. *)
Lemma visited_prefix (fs : filesystem) (l : list Path.t) :
  exists rest, l = visited fs l ++ rest.
Proof.
  induction l as [|d l [rest IH]]; simpl; [now exists []|].
  destruct (has_artifact fs d).
  - now exists l.
  - exists rest. simpl. now f_equal.
Qed.

(* ------------------------------------------------------------------ *)
(** ** The run of [_find_extension_binary] on a readable installation *)

Lemma ordered_dirs_children (fs : filesystem) (base : Path.t) (names : list string) :
  exists ordered,
    ordered_dirs fs base names = map (Path.joinpath base) ordered /\
    Permutation ordered (kept_names fs base names) /\
    StronglySorted name_desc ordered.
Proof.
  destruct (perm_children base (kept_names fs base names) (ordered_dirs fs base names))
    as (ordered & Heq & Hperm).
  { apply list_sort_reverse_perm. }
  exists ordered. repeat split; auto.
  apply (sorted_children base). rewrite <- Heq. apply list_sort_reverse_sorted.
Qed.

Lemma probe_ok_ordered (fs : filesystem) (base : Path.t) (names : list string) :
  probe_ok fs base names = true ->
  forallb (fun d => returned (fs_exists fs (d // artifact_filename)))
          (ordered_dirs fs base names) = true.
Proof.
  unfold probe_ok. rewrite !forallb_forall. intros H d Hd.
  apply (Permutation_in _ (list_sort_reverse_perm _)) in Hd.
  apply in_map_iff in Hd as (n & <- & Hn). now apply H.
Qed.

(** Once the listing and the [is_dir] calls have returned, the run is the
    two checks on [base], one [is_dir] per child, and the loop over the
    sorted version directories. *)
Lemma find_extension_binary_scan (fs : filesystem) (base : Path.t) (names : list string) :
  fs_exists fs base = Return true ->
  fs_listdir fs base = Return names ->
  scan_ok fs base names = true ->
  _find_extension_binary base fs =
  mkRun (result (first_valid (ordered_dirs fs base names) fs))
        fs
        (Exists base :: Iterdir base ::
         map IsDir (map (Path.joinpath base) names) ++
         trace (first_valid (ordered_dirs fs base names) fs)).
Proof.
  intros Hex Hls Hscan.
  unfold _find_extension_binary.
  rewrite (bind_return _ _ _ true) by exact Hex.
  cbn [negb exists_ disk trace].
  rewrite (bind_return _ _ _ (map (Path.joinpath base) names))
    by (cbn [iterdir result]; now rewrite Hls).
  cbn [iterdir disk trace].
  rewrite (bind_return _ _ _ (map (Path.joinpath base) (kept_names fs base names)))
    by now rewrite version_dirs_of_run.
  rewrite (version_dirs_of_run _ _ _ Hscan). cbn [disk trace result].
  unfold ordered_dirs.
  destruct (map (Path.joinpath base) (kept_names fs base names)) as [|d l].
  - reflexivity.
  - pose proof (observes_first_valid (list_sort true (d :: l)) fs) as (Hd & _).
    now rewrite Hd.
Qed.

Lemma find_extension_binary_run (fs : filesystem) (base : Path.t) (names : list string) :
  fs_exists fs base = Return true ->
  fs_listdir fs base = Return names ->
  scan_ok fs base names = true ->
  probe_ok fs base names = true ->
  _find_extension_binary base fs =
  mkRun (Return (option_map (fun d => d // artifact_filename)
                            (find (has_artifact fs) (ordered_dirs fs base names))))
        fs
        (Exists base :: Iterdir base ::
         map IsDir (map (Path.joinpath base) names) ++
         map (fun d => Exists (d // artifact_filename))
             (visited fs (ordered_dirs fs base names))).
Proof.
  intros Hex Hls Hscan Hprobe.
  rewrite (find_extension_binary_scan _ _ _ Hex Hls Hscan).
  now rewrite (first_valid_run _ _ (probe_ok_ordered _ _ _ Hprobe)).
Qed.

(** Two version directories side by side: the loop tries the textually
    greater name first. *)
Lemma list_sort_reverse_pair (base : Path.t) (lo hi : string) :
  String.compare lo hi = Lt ->
  list_sort true [base // lo; base // hi] = [base // hi; base // lo] /\
  list_sort true [base // hi; base // lo] = [base // hi; base // lo].
Proof.
  intros H.
  assert (H1 : Path.ltb (base // lo) (base // hi) = true).
  { unfold Path.ltb. now rewrite path_compare_siblings, H. }
  pose proof (ltb_asym _ _ H1) as H2.
  unfold list_sort, sorted_asc. cbn [rev app fold_right insert].
  now rewrite H1, H2.
Qed.

Lemma find_extension_binary_pair (fs : filesystem) (base : Path.t)
      (names : list string) (lo hi : string) (in_lo in_hi : bool) :
  fs_exists fs base = Return true ->
  fs_listdir fs base = Return names ->
  Permutation [lo; hi] names ->
  String.compare lo hi = Lt ->
  startswith lo "v" = true -> startswith hi "v" = true ->
  fs_is_dir fs (base // lo) = Return true ->
  fs_is_dir fs (base // hi) = Return true ->
  fs_exists fs (base // lo // artifact_filename) = Return in_lo ->
  fs_exists fs (base // hi // artifact_filename) = Return in_hi ->
  result (_find_extension_binary base fs) =
  Return (if in_hi then Some (base // hi // artifact_filename)
          else if in_lo then Some (base // lo // artifact_filename)
          else None).
Proof.
  intros Hex Hls Hperm Hlt Hvlo Hvhi Hdlo Hdhi Halo Hahi.
  assert (Hklo : keeps fs (base // lo) = true)
    by (unfold keeps; now rewrite Hdlo, path_name_join, Hvlo).
  assert (Hkhi : keeps fs (base // hi) = true)
    by (unfold keeps; now rewrite Hdhi, path_name_join, Hvhi).
  destruct (list_sort_reverse_pair base lo hi Hlt) as [Hs1 Hs2].
  assert (Hord : ordered_dirs fs base names = [base // hi; base // lo]).
  { unfold ordered_dirs, kept_names.
    apply Permutation_length_2_inv in Hperm as [->| ->];
      cbn [filter map]; now rewrite Hklo, Hkhi. }
  rewrite (find_extension_binary_run fs base names Hex Hls).
  - cbn [result]. rewrite Hord. cbn [find]. unfold has_artifact.
    rewrite Hahi, Halo. now destruct in_hi, in_lo.
  - unfold scan_ok.
    apply Permutation_length_2_inv in Hperm as [->| ->];
      cbn [forallb]; now rewrite Hdlo, Hdhi.
  - unfold probe_ok, kept_names.
    apply Permutation_length_2_inv in Hperm as [->| ->];
      cbn [filter]; rewrite Hklo, Hkhi; cbn [forallb]; now rewrite Halo, Hahi.
Qed.

Lemma resolve_missing_base_run (fs : filesystem) (base : Path.t) :
  fs_exists fs base = Return false ->
  _find_extension_binary base fs = mkRun (Return None) fs [Exists base].
Proof.
  intros Hex. unfold _find_extension_binary.
  now rewrite (bind_return _ _ _ false) by exact Hex.
Qed.

(* ------------------------------------------------------------------ *)
(** ** Concrete runs *)

Example run_with_strangers :
  _find_extension_binary stps (posix_fs with_strangers) =
  mkRun (Return (Some (stps // "v1.9.0" // artifact_filename)))
        (posix_fs with_strangers)
        [Exists stps; Iterdir stps;
         IsDir (stps // "v1.9.0"); IsDir (stps // "nightly"); IsDir (stps // "v");
         IsDir (stps // "notes.txt"); IsDir (stps // "v2.0.0");
         Exists (stps // "v2.0.0" // artifact_filename);
         Exists (stps // "v1.9.0" // artifact_filename)].
Proof. reflexivity. Qed.

(** [Path.exists] does not ask what kind of entry it finds: a directory
    named like the artifact is returned like a file would be. *)
Example run_artifact_is_a_directory :
  result (_find_extension_binary stps (posix_fs artifact_is_a_directory)) =
  Return (Some (stps // "v1.3.0" // artifact_filename)).
Proof. reflexivity. Qed.

(** A base path that exists but is a file: the listing raises. *)
Example run_base_is_a_file :
  result (_find_extension_binary stps (posix_fs base_is_a_file)) =
  Raise (NotADirectoryError stps).
Proof. reflexivity. Qed.

(** A tag directory written with a capital [V] is not kept.  On a volume
    that tells names apart by case nothing is found; on one that does not,
    the fixed path [v1.4.3] of [get_duckdb_connection] reaches it. *)
Example run_capital_tag :
  result (_find_extension_binary stps (caseless_fs capital_tag)) = Return None /\
  result (get_duckdb_connection unit (Return tt) (fun _ _ => Return tt) home_u
            (posix_fs capital_tag)) =
  Raise (FileNotFoundError (not_installed_message (fallback_path home_u))) /\
  Path.str (fallback_path home_u)
  = "/home/u/.duckdb/extensions/stps/v1.4.3/stps.duckdb_extension" /\
  result (get_extension_version home_u (posix_fs single_version)) = Return (Some "v1.4.3") /\
  result (check_extension_installed home_u (posix_fs fresh_home)) = Return false.
Proof. repeat split; reflexivity. Qed.

(* ------------------------------------------------------------------ *)
(** ** The claims *)

(** C1.  On an existing base directory whose listing and checks return,
    [_find_extension_binary] takes the kept version directories in
    descending order of their names (plain string comparison), checks in
    that order whether [stps.duckdb_extension] exists directly inside, stops
    at the first hit and returns that path.  The returned path is a direct
    child of a kept child of the base and exists in the state the run
    leaves.  With exactly [v1.2.0] and [v1.3.0], both holding the artifact,
    the path under [v1.3.0] is returned. *)
Theorem resolve_newest_first (fs : filesystem) (base : Path.t) (names : list string) :
  fs_exists fs base = Return true ->
  fs_listdir fs base = Return names ->
  scan_ok fs base names = true ->
  probe_ok fs base names = true ->
  let r := _find_extension_binary base fs in
  (exists ordered,
     Permutation ordered (kept_names fs base names) /\
     StronglySorted name_desc ordered /\
     trace r =
       Exists base :: Iterdir base ::
       map IsDir (map (Path.joinpath base) names) ++
       map (fun d => Exists (d // artifact_filename))
           (visited fs (map (Path.joinpath base) ordered)) /\
     result r =
       Return (option_map (fun d => d // artifact_filename)
                          (find (has_artifact fs) (map (Path.joinpath base) ordered)))) /\
  (forall p, result r = Return (Some p) ->
     fs_exists (disk r) p = Return true /\
     exists n, In n (kept_names fs base names) /\ p = base // n // artifact_filename) /\
  (Permutation ["v1.2.0"; "v1.3.0"] names ->
   (forall n, In n names ->
      fs_is_dir fs (base // n) = Return true /\
      fs_exists fs (base // n // artifact_filename) = Return true) ->
   result r = Return (Some (base // "v1.3.0" // artifact_filename))).
Proof.
  intros Hex Hls Hscan Hprobe r.
  pose proof (find_extension_binary_run fs base names Hex Hls Hscan Hprobe) as Hrun.
  destruct (ordered_dirs_children fs base names) as (ordered & Hord & Hperm & Hsorted).
  split; [|split].
  - exists ordered. subst r. rewrite Hrun, Hord. cbn [trace result]. auto.
  - intros p Hp. subst r. rewrite Hrun in *. cbn [result disk] in *.
    injection Hp as Hp.
    destruct (find (has_artifact fs) (ordered_dirs fs base names)) as [d|] eqn:Hf;
      [|discriminate].
    injection Hp as <-. apply find_some in Hf as [Hin Hhas].
    split.
    + unfold has_artifact, holds in Hhas.
      now destruct (fs_exists fs (d // artifact_filename)) as [[|]|].
    + rewrite Hord in Hin. apply in_map_iff in Hin as (n & <- & Hn).
      exists n. split; [|reflexivity]. now apply (Permutation_in _ Hperm).
  - intros Hnames Hall. subst r.
    assert (H2 : In "v1.2.0" names) by (apply (Permutation_in _ Hnames); simpl; auto).
    assert (H3 : In "v1.3.0" names) by (apply (Permutation_in _ Hnames); simpl; auto).
    destruct (Hall _ H2) as [Hd2 Ha2]. destruct (Hall _ H3) as [Hd3 Ha3].
    now rewrite (find_extension_binary_pair fs base names "v1.2.0" "v1.3.0" true true).
Qed.

Lemma resolve_newest_first_witness :
  fs_exists (posix_fs two_patch_levels) stps = Return true /\
  fs_listdir (posix_fs two_patch_levels) stps = Return ["v1.2.0"; "v1.3.0"] /\
  scan_ok (posix_fs two_patch_levels) stps ["v1.2.0"; "v1.3.0"] = true /\
  probe_ok (posix_fs two_patch_levels) stps ["v1.2.0"; "v1.3.0"] = true /\
  result (_find_extension_binary stps (posix_fs two_patch_levels)) =
  Return (Some (stps // "v1.3.0" // artifact_filename)).
Proof.
  repeat (split; [reflexivity|]).
  apply (resolve_newest_first (posix_fs two_patch_levels) stps ["v1.2.0"; "v1.3.0"]);
    try reflexivity.
  intros n [<-|[<-|[]]]; split; reflexivity.
Defined.

(** C4.  When the base directory does not exist the run is the single
    existence check on the base: it returns [None], raises nothing, lists
    nothing and checks no candidate artifact. *)
Theorem resolve_missing_base (fs : filesystem) (base : Path.t) :
  fs_exists fs base = Return false ->
  _find_extension_binary base fs = mkRun (Return None) fs [Exists base].
Proof.
  intros Hex. unfold _find_extension_binary, bind.
  cbn [exists_ result]. rewrite Hex. reflexivity.
Qed.

Lemma resolve_missing_base_witness :
  fs_exists (posix_fs fresh_home) stps = Return false /\
  _find_extension_binary stps (posix_fs fresh_home) =
  mkRun (Return None) (posix_fs fresh_home) [Exists stps].
Proof.
  split; [reflexivity|]. apply resolve_missing_base. reflexivity.
Defined.

(** C5.  On an existing base directory whose listing and checks return,
    when no kept version directory holds the artifact the result is [None]
    and nothing is raised; when the base has no sub-directory at all the
    result is [None] without a single artifact check. *)
Theorem resolve_nothing_usable (fs : filesystem) (base : Path.t) (names : list string) :
  fs_exists fs base = Return true ->
  fs_listdir fs base = Return names ->
  scan_ok fs base names = true ->
  let r := _find_extension_binary base fs in
  (probe_ok fs base names = true ->
   (forall n, In n (kept_names fs base names) -> has_artifact fs (base // n) = false) ->
   result r = Return None) /\
  ((forall n, In n names -> fs_is_dir fs (base // n) = Return false) ->
   result r = Return None /\
   trace r = Exists base :: Iterdir base :: map IsDir (map (Path.joinpath base) names)).
Proof.
  intros Hex Hls Hscan r. split.
  - intros Hprobe Hnone. subst r.
    rewrite (find_extension_binary_run fs base names Hex Hls Hscan Hprobe).
    cbn [result].
    destruct (find (has_artifact fs) (ordered_dirs fs base names)) as [d|] eqn:Hf;
      [|reflexivity].
    apply find_some in Hf as [Hin Hhas].
    apply (Permutation_in _ (list_sort_reverse_perm _)) in Hin.
    apply in_map_iff in Hin as (n & <- & Hn).
    rewrite (Hnone n Hn) in Hhas. discriminate.
  - intros Hfiles. subst r.
    assert (Hkept : kept_names fs base names = []).
    { unfold kept_names. clear Hls Hscan.
      induction names as [|n names IH]; [reflexivity|]. cbn [filter].
      unfold keeps at 1. rewrite (Hfiles n (or_introl eq_refl)). cbn [holds andb].
      apply IH. intros m Hm. apply Hfiles. now right. }
    rewrite (find_extension_binary_scan fs base names Hex Hls Hscan).
    unfold ordered_dirs. rewrite Hkept. cbn. now rewrite app_nil_r.
Qed.

Lemma resolve_nothing_usable_witness :
  fs_exists (posix_fs nothing_usable) stps = Return true /\
  fs_listdir (posix_fs nothing_usable) stps = Return ["v2.0.0"; "notes.txt"] /\
  scan_ok (posix_fs nothing_usable) stps ["v2.0.0"; "notes.txt"] = true /\
  probe_ok (posix_fs nothing_usable) stps ["v2.0.0"; "notes.txt"] = true /\
  result (_find_extension_binary stps (posix_fs nothing_usable)) = Return None.
Proof.
  repeat (split; [reflexivity|]).
  refine (proj1 (resolve_nothing_usable (posix_fs nothing_usable) stps
                   ["v2.0.0"; "notes.txt"] eq_refl eq_refl eq_refl) eq_refl _).
  intros n [<-|[]]. reflexivity.
Defined.

(** C3.  A kept version directory without the artifact is passed over: it
    is never the result, it raises nothing, and it does not hide a
    directory that holds the artifact, whatever its own name.  With
    [v2.0.0] lacking the artifact and [v1.9.0] holding it, the path under
    [v1.9.0] is returned. *)
Theorem resolve_skips_incomplete (fs : filesystem) (base : Path.t) (names : list string) :
  fs_exists fs base = Return true ->
  fs_listdir fs base = Return names ->
  scan_ok fs base names = true ->
  probe_ok fs base names = true ->
  let r := _find_extension_binary base fs in
  (forall n, In n (kept_names fs base names) ->
     has_artifact fs (base // n) = false ->
     result r <> Return (Some (base // n // artifact_filename)) /\
     (exists v, result r = Return v) /\
     (forall m, In m (kept_names fs base names) ->
        has_artifact fs (base // m) = true ->
        exists m', has_artifact fs (base // m') = true /\
                   result r = Return (Some (base // m' // artifact_filename)))) /\
  (Permutation ["v1.9.0"; "v2.0.0"] names ->
   fs_is_dir fs (base // "v1.9.0") = Return true ->
   fs_is_dir fs (base // "v2.0.0") = Return true ->
   fs_exists fs (base // "v1.9.0" // artifact_filename) = Return true ->
   fs_exists fs (base // "v2.0.0" // artifact_filename) = Return false ->
   result r = Return (Some (base // "v1.9.0" // artifact_filename))).
Proof.
  intros Hex Hls Hscan Hprobe r.
  pose proof (find_extension_binary_run fs base names Hex Hls Hscan Hprobe) as Hrun.
  split.
  - intros n Hn Hmiss. subst r. rewrite Hrun. cbn [result]. repeat split.
    + intros [= H].
      destruct (find (has_artifact fs) (ordered_dirs fs base names)) as [d|] eqn:Hf;
        [|discriminate].
      apply find_some in Hf as [Hin Hhas]. cbn in H. injection H as H.
      apply (f_equal Path.parent) in H. rewrite !path_parent_join in H.
      subst d. congruence.
    + eauto.
    + intros m Hm Hhas.
      destruct (find (has_artifact fs) (ordered_dirs fs base names)) as [d|] eqn:Hf.
      * apply find_some in Hf as [Hin Hd].
        apply (Permutation_in _ (list_sort_reverse_perm _)) in Hin.
        apply in_map_iff in Hin as (m' & <- & _). exists m'. auto.
      * exfalso.
        assert (Hin : In (base // m) (ordered_dirs fs base names)).
        { apply (Permutation_in _ (Permutation_sym (list_sort_reverse_perm _))).
          now apply in_map. }
        rewrite (find_none _ _ Hf _ Hin) in Hhas. discriminate.
  - intros Hnames Hd1 Hd2 Ha1 Ha2. subst r.
    now rewrite (find_extension_binary_pair fs base names "v1.9.0" "v2.0.0" true false).
Qed.

Lemma resolve_skips_incomplete_witness :
  fs_exists (posix_fs newest_incomplete) stps = Return true /\
  fs_listdir (posix_fs newest_incomplete) stps = Return ["v2.0.0"; "v1.9.0"] /\
  scan_ok (posix_fs newest_incomplete) stps ["v2.0.0"; "v1.9.0"] = true /\
  probe_ok (posix_fs newest_incomplete) stps ["v2.0.0"; "v1.9.0"] = true /\
  result (_find_extension_binary stps (posix_fs newest_incomplete)) =
  Return (Some (stps // "v1.9.0" // artifact_filename)).
Proof.
  repeat (split; [reflexivity|]).
  apply (resolve_skips_incomplete (posix_fs newest_incomplete) stps ["v2.0.0"; "v1.9.0"]);
    try reflexivity.
  apply perm_swap.
Defined.

(** C2 (as the code has it).  The loop walks the kept names in descending
    order of plain string comparison of the whole tag, not of version
    numbers.  With exactly [v1.9.0] and [v1.10.0], both holding the
    artifact, [v1.10.0] is the textually smaller name, so the walk starts at
    [v1.9.0] and the path under [v1.9.0] is returned. *)
Theorem resolve_textual_order (fs : filesystem) (base : Path.t) (names : list string) :
  (exists ordered,
     ordered_dirs fs base names = map (Path.joinpath base) ordered /\
     Permutation ordered (kept_names fs base names) /\
     StronglySorted name_desc ordered) /\
  (fs_exists fs base = Return true ->
   fs_listdir fs base = Return names ->
   Permutation ["v1.10.0"; "v1.9.0"] names ->
   (forall n, In n names ->
      fs_is_dir fs (base // n) = Return true /\
      fs_exists fs (base // n // artifact_filename) = Return true) ->
   ("v1.10.0" <? "v1.9.0")%string = true /\
   ordered_dirs fs base names = [base // "v1.9.0"; base // "v1.10.0"] /\
   result (_find_extension_binary base fs) =
   Return (Some (base // "v1.9.0" // artifact_filename))).
Proof.
  split; [apply ordered_dirs_children|].
  intros Hex Hls Hnames Hall.
  assert (H10 : In "v1.10.0" names) by (apply (Permutation_in _ Hnames); simpl; auto).
  assert (H9 : In "v1.9.0" names) by (apply (Permutation_in _ Hnames); simpl; auto).
  destruct (Hall _ H10) as [Hd10 Ha10]. destruct (Hall _ H9) as [Hd9 Ha9].
  split; [reflexivity|]. split.
  - assert (Hk10 : keeps fs (base // "v1.10.0") = true)
      by (unfold keeps; now rewrite Hd10, path_name_join).
    assert (Hk9 : keeps fs (base // "v1.9.0") = true)
      by (unfold keeps; now rewrite Hd9, path_name_join).
    destruct (list_sort_reverse_pair base "v1.10.0" "v1.9.0" eq_refl) as [Hs1 Hs2].
    unfold ordered_dirs, kept_names.
    apply Permutation_length_2_inv in Hnames as [->| ->];
      cbn [filter map]; now rewrite Hk10, Hk9.
  - now rewrite (find_extension_binary_pair fs base names "v1.10.0" "v1.9.0" true true).
Qed.

Lemma resolve_textual_order_witness :
  fs_exists (posix_fs two_digit_minor) stps = Return true /\
  fs_listdir (posix_fs two_digit_minor) stps = Return ["v1.9.0"; "v1.10.0"] /\
  result (_find_extension_binary stps (posix_fs two_digit_minor)) =
  Return (Some (stps // "v1.9.0" // artifact_filename)).
Proof.
  repeat (split; [reflexivity|]).
  refine (proj2 (proj2 (proj2 (resolve_textual_order (posix_fs two_digit_minor) stps
                                 ["v1.9.0"; "v1.10.0"]) eq_refl eq_refl _ _))).
  - apply perm_swap.
  - intros n [<-|[<-|[]]]; split; reflexivity.
Defined.

(** C2, as worded, fails: of [v1.9.0] and [v1.10.0], both holding the
    artifact, [v1.10.0] is the name that sorts first under plain string
    comparison, and the path under it is not what is returned. *)
Lemma resolve_textual_order_counterexample :
  ("v1.10.0" <? "v1.9.0")%string = true /\
  fs_exists (posix_fs two_digit_minor) (stps // "v1.10.0" // artifact_filename)
    = Return true /\
  fs_exists (posix_fs two_digit_minor) (stps // "v1.9.0" // artifact_filename)
    = Return true /\
  result (_find_extension_binary stps (posix_fs two_digit_minor)) <>
  Return (Some (stps // "v1.10.0" // artifact_filename)).
Proof.
  repeat (split; [reflexivity|]). vm_compute. discriminate.
Qed.

(* ------------------------------------------------------------------ *)
(** ** Children that are not version directories *)

Lemma not_below_short (d p : Path.t) :
  (List.length p <= List.length d)%nat -> ~ below d p.
Proof.
  intros Hlen (c & rest & ->). rewrite List.length_app in Hlen. simpl in Hlen. lia.
Qed.

Lemma below_child_artifact (base : Path.t) (n m a : string) :
  below (base // n) (base // m // a) -> m = n.
Proof.
  intros (c & rest & H). unfold Path.joinpath in H.
  rewrite <- !app_assoc in H. apply app_inv_head in H.
  simpl in H. now injection H.
Qed.

Lemma first_valid_result (fs : filesystem) (l : list Path.t) (p : Path.t) :
  result (first_valid l fs) = Return (Some p) ->
  exists d, In d l /\ p = d // artifact_filename /\ fs_exists fs p = Return true.
Proof.
  induction l as [|d l IH]; simpl; [discriminate|].
  unfold bind, exists_. simpl.
  destruct (fs_exists fs (d // artifact_filename)) as [[|]|e] eqn:E; simpl.
  - intros [= <-]. eauto.
  - intros H. destruct (IH H) as (d' & Hd' & Hp & He). eauto.
  - discriminate.
Qed.

Lemma filter_all {A} (f : A -> bool) (l : list A) :
  (forall x, In x l -> f x = true) -> filter f l = l.
Proof.
  induction l as [|x l IH]; simpl; intros H; [reflexivity|].
  rewrite (H x (or_introl eq_refl)). f_equal. apply IH. auto.
Qed.

Lemma kept_names_in (fs : filesystem) (base : Path.t) (names : list string) (n : string) :
  In n (kept_names fs base names) <-> In n names /\ keeps fs (base // n) = true.
Proof. unfold kept_names. apply filter_In. Qed.

Lemma ordered_dirs_in (fs : filesystem) (base : Path.t) (names : list string) (d : Path.t) :
  In d (ordered_dirs fs base names) ->
  exists n, d = base // n /\ In n (kept_names fs base names).
Proof.
  intros H. apply (Permutation_in _ (list_sort_reverse_perm _)) in H.
  apply in_map_iff in H as (n & <- & Hn). eauto.
Qed.

Lemma version_dirs_of_raise (fs : filesystem) (base : Path.t) (names : list string)
      (n : string) (e : exn) :
  In n names -> fs_is_dir fs (base // n) = Raise e ->
  exists e', result (version_dirs_of (map (Path.joinpath base) names) fs) = Raise e'.
Proof.
  intros Hn He. induction names as [|m names IH]; [contradiction|].
  cbn [map version_dirs_of].
  destruct (fs_is_dir fs (base // m)) as [isd|e'] eqn:Hm.
  - rewrite (bind_return _ _ _ isd) by exact Hm. cbn [result is_dir disk].
    destruct Hn as [->|Hn]; [congruence|].
    destruct (IH Hn) as (e' & He').
    rewrite (bind_raise _ _ _ e') by exact He'. cbn [result]. eauto.
  - rewrite (bind_raise _ _ _ e') by exact Hm. cbn [result]. eauto.
Qed.

(** [is_dir] is asked of every listed child before its name is looked
    at: a child on which it raises makes the run raise. *)
Lemma find_extension_binary_is_dir_raises (fs : filesystem) (base : Path.t)
      (names : list string) (n : string) (e : exn) :
  fs_exists fs base = Return true ->
  fs_listdir fs base = Return names ->
  In n names -> fs_is_dir fs (base // n) = Raise e ->
  exists e', result (_find_extension_binary base fs) = Raise e'.
Proof.
  intros Hex Hls Hn He. unfold _find_extension_binary.
  rewrite (bind_return _ _ _ true) by exact Hex. cbn [negb exists_ disk result].
  rewrite (bind_return _ _ _ (map (Path.joinpath base) names))
    by (cbn [iterdir result]; now rewrite Hls).
  cbn [iterdir disk result].
  destruct (version_dirs_of_raise fs base names n e Hn He) as (e' & He').
  rewrite (bind_raise _ _ _ e') by exact He'. cbn [result]. eauto.
Qed.

(** C6 (as the code has it).  [is_dir] is called on every listed child
    before its name is looked at.  When these calls return, a listed child
    that is not a directory, or whose name does not start with [v], is left
    alone: no call of the run is made on a path below it, the result is
    never a path below it, and a base directory that lists only the kept
    children (and agrees on them) gives the same result, error or not; so
    neither the presence nor the contents of such a child change the
    outcome, and with the artifact checks returning the run raises
    nothing.  When [is_dir] raises on a listed child, whatever its name,
    the run raises. *)
Theorem resolve_ignores_strangers (fs : filesystem) (base : Path.t) (names : list string) :
  fs_exists fs base = Return true ->
  fs_listdir fs base = Return names ->
  let r := _find_extension_binary base fs in
  (scan_ok fs base names = true ->
  (forall n, In n names ->
     fs_is_dir fs (base // n) = Return false \/ startswith n "v" = false ->
     (forall c, In c (trace r) -> ~ below (base // n) (path_of c)) /\
     (forall p, result r = Return (Some p) -> ~ below (base // n) p)) /\
  (forall fs',
     fs_exists fs' base = Return true ->
     fs_listdir fs' base = Return (kept_names fs base names) ->
     (forall n, In n (kept_names fs base names) ->
        fs_is_dir fs' (base // n) = fs_is_dir fs (base // n) /\
        fs_exists fs' (base // n // artifact_filename) =
        fs_exists fs (base // n // artifact_filename)) ->
     result (_find_extension_binary base fs') = result r) /\
  (probe_ok fs base names = true -> exists v, result r = Return v)) /\
  (forall n e, In n names -> fs_is_dir fs (base // n) = Raise e ->
     exists e', result r = Raise e').
Proof.
  intros Hex Hls r. split.
  2:{ intros n e Hn He.
      exact (find_extension_binary_is_dir_raises fs base names n e Hex Hls Hn He). }
  intros Hscan.
  pose proof (find_extension_binary_scan fs base names Hex Hls Hscan) as Hrun.
  split; [|split].
  - intros n Hn Hstranger.
    assert (Hk : keeps fs (base // n) = false).
    { unfold keeps. rewrite path_name_join.
      destruct Hstranger as [-> | ->]; [reflexivity|apply andb_false_r]. }
    assert (Hprobe : forall d, In d (ordered_dirs fs base names) ->
                               ~ below (base // n) (d // artifact_filename)).
    { intros d Hd Hb. apply ordered_dirs_in in Hd as (m & -> & Hm).
      apply below_child_artifact in Hb. subst m.
      apply kept_names_in in Hm as [_ Hm]. congruence. }
    subst r. rewrite Hrun. cbn [trace result]. split.
    + intros c [<-|[<-|Hc]].
      * apply not_below_short. unfold Path.joinpath. rewrite List.length_app. apply Nat.le_add_r.
      * apply not_below_short. unfold Path.joinpath. rewrite List.length_app. apply Nat.le_add_r.
      * apply in_app_or in Hc as [Hc|Hc].
        -- rewrite map_map in Hc. apply in_map_iff in Hc as (m & <- & _).
           apply not_below_short. unfold Path.joinpath. cbn [path_of].
           rewrite !List.length_app. apply Nat.le_refl.
        -- apply first_valid_trace in Hc as (d & Hd & ->). now apply Hprobe.
    + intros p Hp. apply first_valid_result in Hp as (d & Hd & -> & _).
      now apply Hprobe.
  - intros fs' Hex' Hls' Hagree.
    assert (Hscan' : scan_ok fs' base (kept_names fs base names) = true).
    { unfold scan_ok in *. rewrite forallb_forall in *. intros n Hn.
      rewrite (proj1 (Hagree n Hn)). apply Hscan.
      now apply kept_names_in in Hn as [Hn _]. }
    assert (Hkept : kept_names fs' base (kept_names fs base names)
                    = kept_names fs base names).
    { apply filter_all. intros n Hn. unfold keeps.
      rewrite (proj1 (Hagree n Hn)). now apply kept_names_in in Hn as [_ Hn]. }
    subst r. rewrite Hrun.
    rewrite (find_extension_binary_scan fs' base _ Hex' Hls' Hscan').
    cbn [result]. unfold ordered_dirs at 1 2. rewrite Hkept.
    apply first_valid_ext. intros d Hd.
    apply ordered_dirs_in in Hd as (n & -> & Hn). apply Hagree, Hn.
  - intros Hprobe. subst r.
    rewrite (find_extension_binary_run fs base names Hex Hls Hscan Hprobe).
    cbn [result]. eauto.
Qed.

Lemma resolve_ignores_strangers_witness :
  fs_exists (posix_fs with_strangers) stps = Return true /\
  fs_listdir (posix_fs with_strangers) stps
    = Return ["v1.9.0"; "nightly"; "v"; "notes.txt"; "v2.0.0"] /\
  scan_ok (posix_fs with_strangers) stps
    ["v1.9.0"; "nightly"; "v"; "notes.txt"; "v2.0.0"] = true /\
  fs_exists (posix_fs with_strangers) (stps // "nightly" // artifact_filename)
    = Return true /\
  result (_find_extension_binary stps (posix_fs without_strangers)) =
  result (_find_extension_binary stps (posix_fs with_strangers)).
Proof.
  repeat (split; [reflexivity|]).
  refine (proj1 (proj2 (proj1 (resolve_ignores_strangers (posix_fs with_strangers) stps
            ["v1.9.0"; "nightly"; "v"; "notes.txt"; "v2.0.0"] eq_refl eq_refl) eq_refl))
          (posix_fs without_strangers) eq_refl eq_refl _).
  intros n [<-|[<-|[]]]; split; reflexivity.
Defined.

(** C6, as worded, fails: [nightly] does not start with [v], and yet its
    presence makes the run raise when [is_dir] is refused on it, where the
    same installation without it returns the path under [v1.9.0]. *)
Lemma resolve_ignores_strangers_counterexample :
  startswith "nightly" "v" = false /\
  fs_listdir (is_dir_refused (stps // "nightly") (posix_fs with_strangers)) stps
    = Return ["v1.9.0"; "nightly"; "v"; "notes.txt"; "v2.0.0"] /\
  result (_find_extension_binary stps
            (is_dir_refused (stps // "nightly") (posix_fs with_strangers)))
    = Raise (PermissionError (stps // "nightly")) /\
  result (_find_extension_binary stps (posix_fs without_strangers))
    = Return (Some (stps // "v1.9.0" // artifact_filename)).
Proof. repeat split; reflexivity. Qed.

(* ------------------------------------------------------------------ *)
(** ** Failures of the file system *)

(** C7.  A missing base directory gives [None], not an exception.  Every
    exception raised by a call the run made on the file system is the
    result of the run, so no failure is absorbed or turned into [None], and
    the run raises nothing but such an exception.  In particular a failure
    of the existence check or of the listing of the base is the result, and
    a failure of [is_dir] on a listed child makes the run raise. *)
Theorem resolve_propagates_failures (fs : filesystem) (base : Path.t) :
  let r := _find_extension_binary base fs in
  (fs_exists fs base = Return false -> result r = Return None) /\
  (forall c e, In c (trace r) -> raised fs c = Some e -> result r = Raise e) /\
  (forall e, result r = Raise e -> exists c, In c (trace r) /\ raised fs c = Some e) /\
  (forall e, fs_exists fs base = Raise e -> result r = Raise e) /\
  (forall e, fs_exists fs base = Return true -> fs_listdir fs base = Raise e ->
             result r = Raise e) /\
  (forall names n e,
     fs_exists fs base = Return true -> fs_listdir fs base = Return names ->
     In n names -> fs_is_dir fs (base // n) = Raise e ->
     exists e', result r = Raise e').
Proof.
  intros r. destruct (observes_find_extension_binary base fs) as (_ & Hp & Ho).
  repeat split.
  - intros Hex. subst r. now rewrite (resolve_missing_base_run fs base Hex).
  - exact Hp.
  - exact Ho.
  - intros e Hex. subst r. unfold _find_extension_binary.
    now rewrite (bind_raise _ _ _ e) by exact Hex.
  - intros e Hex Hls. subst r. unfold _find_extension_binary.
    rewrite (bind_return _ _ _ true) by exact Hex. cbn [negb exists_ disk result].
    now rewrite (bind_raise _ _ _ e) by (cbn [iterdir result]; now rewrite Hls).
  - intros names n e Hex Hls Hn He. subst r. unfold _find_extension_binary.
    rewrite (bind_return _ _ _ true) by exact Hex. cbn [negb exists_ disk result].
    rewrite (bind_return _ _ _ (map (Path.joinpath base) names))
      by (cbn [iterdir result]; now rewrite Hls).
    cbn [iterdir disk result].
    destruct (version_dirs_of_raise fs base names n e Hn He) as (e' & He').
    rewrite (bind_raise _ _ _ e') by exact He'. cbn [result]. eauto.
Qed.

Lemma resolve_propagates_failures_witness :
  fs_exists (unreadable stps (posix_fs single_version)) stps = Return true /\
  result (_find_extension_binary stps (unreadable stps (posix_fs single_version)))
  = Raise (PermissionError stps).
Proof.
  split; [reflexivity|].
  refine (proj1 (proj2 (proj2 (proj2 (proj2
            (resolve_propagates_failures (unreadable stps (posix_fs single_version)) stps)))))
          (PermissionError stps) eq_refl eq_refl).
Defined.

(* ------------------------------------------------------------------ *)
(** ** Frame and repetition *)

Lemma find_extension_binary_allowed (fs : filesystem) (base : Path.t) (c : call) :
  In c (trace (_find_extension_binary base fs)) -> allowed_call fs base c.
Proof.
  unfold _find_extension_binary, allowed_call.
  destruct (fs_exists fs base) as [[|]|e] eqn:Hex.
  - rewrite (bind_return _ _ _ true) by exact Hex. cbn [negb exists_ disk trace].
    destruct (fs_listdir fs base) as [names|e] eqn:Hls.
    + rewrite (bind_return _ _ _ (map (Path.joinpath base) names))
        by (cbn [iterdir result]; now rewrite Hls).
      cbn [iterdir disk trace].
      pose proof (observes_version_dirs_of (map (Path.joinpath base) names) fs)
        as (Hdisk & _).
      assert (Hscan : forall c', In c' (trace (version_dirs_of
                                   (map (Path.joinpath base) names) fs)) ->
                exists n, In n names /\ c' = IsDir (base // n)).
      { intros c' Hc'. apply version_dirs_of_trace in Hc' as (d & Hd & ->).
        apply in_map_iff in Hd as (n & <- & Hn). eauto. }
      destruct (result (version_dirs_of (map (Path.joinpath base) names) fs))
        as [l|e] eqn:Hv.
      * rewrite (bind_return _ _ _ l) by exact Hv. cbn [trace app]. rewrite Hdisk.
        apply version_dirs_of_incl in Hv.
        intros [<-|[<-|Hc]]; auto. right; right. exists names.
        apply in_app_or in Hc as [Hc|Hc].
        -- destruct (Hscan c Hc) as (n & Hn & ->). eauto.
        -- destruct l as [|d l]; [contradiction|].
           apply first_valid_trace in Hc as (d' & Hd' & ->).
           apply (Permutation_in _ (list_sort_reverse_perm _)) in Hd'.
           apply Hv, in_map_iff in Hd' as (n & <- & Hn). eauto.
      * rewrite (bind_raise _ _ _ e) by exact Hv. cbn [trace app].
        intros [<-|[<-|Hc]]; auto. right; right. exists names.
        destruct (Hscan c Hc) as (n & Hn & ->). eauto.
    + rewrite (bind_raise _ _ _ e) by (cbn [iterdir result]; now rewrite Hls).
      cbn [iterdir trace app]. intros [<-|[<-|[]]]; auto.
  - rewrite (bind_return _ _ _ false) by exact Hex. cbn.
    intros [<-|[]]; auto.
  - rewrite (bind_raise _ _ _ e) by exact Hex. cbn.
    intros [<-|[]]; auto.
Qed.

Lemma repeat_calls_run (fs : filesystem) (base : Path.t) (v : option Path.t) (k : nat) :
  result (_find_extension_binary base fs) = Return v ->
  result (repeat_calls k base fs) = Return (repeat v k) /\
  disk (repeat_calls k base fs) = fs.
Proof.
  intros Hv. induction k as [|k [IHr IHd]]; [now split|].
  cbn [repeat_calls repeat].
  rewrite (bind_return _ _ _ v) by exact Hv. cbn [result disk].
  rewrite (find_extension_binary_disk base fs).
  rewrite (bind_return _ _ _ (repeat v k)) by exact IHr. cbn [result disk].
  now rewrite IHd.
Qed.

Lemma find_extension_binary_single (fs : filesystem) (base : Path.t) (tag : string) :
  fs_exists fs base = Return true ->
  fs_listdir fs base = Return [tag] ->
  startswith tag "v" = true ->
  fs_is_dir fs (base // tag) = Return true ->
  fs_exists fs (base // tag // artifact_filename) = Return true ->
  result (_find_extension_binary base fs) = Return (Some (base // tag // artifact_filename)).
Proof.
  intros Hex Hls Hv Hd Ha.
  assert (Hk : keeps fs (base // tag) = true)
    by (unfold keeps; now rewrite Hd, path_name_join, Hv).
  rewrite (find_extension_binary_run fs base [tag] Hex Hls).
  - unfold ordered_dirs, kept_names. cbn [filter]. rewrite Hk.
    cbn. unfold has_artifact. now rewrite Ha.
  - unfold scan_ok. cbn. now rewrite Hd.
  - unfold probe_ok, kept_names. cbn [filter]. rewrite Hk. cbn. now rewrite Ha.
Qed.

(** C9.  A call leaves the state as it found it, so a second call on the
    state left by the first has the same result, and any number of calls
    in a row return the same value (or all raise what the first raised).
    With [v1.4.3] as the only version directory, holding the artifact,
    every call returns the path under it. *)
Theorem resolve_idempotent (fs : filesystem) (base : Path.t) :
  result (_find_extension_binary base (disk (_find_extension_binary base fs)))
  = result (_find_extension_binary base fs) /\
  (forall v k, result (_find_extension_binary base fs) = Return v ->
               result (repeat_calls k base fs) = Return (repeat v k)) /\
  (forall e k, result (_find_extension_binary base fs) = Raise e ->
               result (repeat_calls (S k) base fs) = Raise e) /\
  (fs_exists fs base = Return true ->
   fs_listdir fs base = Return ["v1.4.3"] ->
   fs_is_dir fs (base // "v1.4.3") = Return true ->
   fs_exists fs (base // "v1.4.3" // artifact_filename) = Return true ->
   forall k, result (repeat_calls k base fs)
             = Return (repeat (Some (base // "v1.4.3" // artifact_filename)) k)).
Proof.
  repeat split.
  - now rewrite find_extension_binary_disk.
  - intros v k Hv. now apply repeat_calls_run.
  - intros e k He. cbn [repeat_calls]. now rewrite (bind_raise _ _ _ e) by exact He.
  - intros Hex Hls Hd Ha k. apply repeat_calls_run.
    now apply find_extension_binary_single.
Qed.

Lemma resolve_idempotent_witness :
  fs_exists (posix_fs single_version) stps = Return true /\
  fs_listdir (posix_fs single_version) stps = Return ["v1.4.3"] /\
  result (repeat_calls 3 stps (posix_fs single_version))
  = Return (repeat (Some (stps // "v1.4.3" // artifact_filename)) 3).
Proof.
  repeat (split; [reflexivity|]).
  exact (proj2 (proj2 (proj2 (resolve_idempotent (posix_fs single_version) stps)))
           eq_refl eq_refl eq_refl eq_refl 3).
Defined.

(** C10.  A run only observes: the state after the run is the state
    before it, and every call made is an existence check or the listing
    of the base, an [is_dir] check of a listed child, or an existence
    check of the artifact of a listed child. *)
Theorem resolve_read_only (fs : filesystem) (base : Path.t) :
  disk (_find_extension_binary base fs) = fs /\
  (forall c, In c (trace (_find_extension_binary base fs)) -> allowed_call fs base c).
Proof.
  split; [apply find_extension_binary_disk|].
  intros c. apply find_extension_binary_allowed.
Qed.

(** C8.  When detection returns [None], [get_duckdb_connection] goes on to
    check the fixed path [<home>/.duckdb/extensions/stps/v1.4.3/stps.duckdb_extension]:
    if it exists the driver is asked to load it and the outcome of the
    load is the outcome of the call; if it does not exist
    [FileNotFoundError] is raised. *)
Theorem connection_falls_back
        (Conn : Type) (duckdb_connect : outcome Conn)
        (execute_load : Conn -> Path.t -> outcome unit)
        (home : Path.t) (fs : filesystem) (conn : Conn) :
  duckdb_connect = Return conn ->
  result (_find_extension_binary (extensions_base_of home) fs) = Return None ->
  let r := get_duckdb_connection Conn duckdb_connect execute_load home fs in
  trace r = trace (_find_extension_binary (extensions_base_of home) fs)
            ++ [Exists (fallback_path home)] /\
  (fs_exists fs (fallback_path home) = Return true ->
   result r = match execute_load conn (fallback_path home) with
              | Return _ => Return conn
              | Raise (IOException e) =>
                  Raise (IOException (load_failure_message (fallback_path home) e))
              | Raise e => Raise e
              end) /\
  (fs_exists fs (fallback_path home) = Return false ->
   result r = Raise (FileNotFoundError (not_installed_message (fallback_path home)))).
Proof.
  intros Hconn Hnone r. subst r. unfold get_duckdb_connection.
  rewrite (bind_return _ _ _ conn) by exact Hconn. cbn [lift disk trace result app].
  rewrite (bind_return _ _ _ None) by exact Hnone. cbn [disk trace result].
  rewrite (find_extension_binary_disk _ fs).
  change (extensions_base_of home // "v1.4.3" // "stps.duckdb_extension")
    with (fallback_path home).
  destruct (fs_exists fs (fallback_path home)) as [[|]|e] eqn:Hfb.
  - rewrite (bind_return _ _ _ (fallback_path home))
      by (rewrite (bind_return _ _ _ true) by exact Hfb; reflexivity).
    rewrite (bind_return (exists_ (fallback_path home)) _ _ true) by exact Hfb.
    cbn [negb ret exists_ disk trace result app].
    split; [|split; [|discriminate]].
    + destruct (execute_load conn (fallback_path home)) as [u|[]];
        cbn; now rewrite ?app_nil_r.
    + intros _.
      destruct (execute_load conn (fallback_path home)) as [u|[]]; reflexivity.
  - rewrite (bind_raise _ _ _ (FileNotFoundError (not_installed_message (fallback_path home))))
      by (rewrite (bind_return _ _ _ false) by exact Hfb; reflexivity).
    rewrite (bind_return (exists_ (fallback_path home)) _ _ false) by exact Hfb.
    cbn [negb throw exists_ disk trace result app].
    split; [reflexivity|split; [discriminate|reflexivity]].
  - rewrite (bind_raise _ _ _ e)
      by (rewrite (bind_raise _ _ _ e) by exact Hfb; reflexivity).
    rewrite (bind_raise (exists_ (fallback_path home)) _ _ e) by exact Hfb.
    cbn [exists_ disk trace result].
    split; [reflexivity|split; discriminate].
Qed.

Lemma connection_falls_back_witness :
  result (_find_extension_binary (extensions_base_of home_u) (caseless_fs capital_tag))
  = Return None /\
  fs_exists (caseless_fs capital_tag) (fallback_path home_u) = Return true /\
  result (get_duckdb_connection unit (Return tt) (fun _ _ => Return tt) home_u
            (caseless_fs capital_tag))
  = Return tt.
Proof.
  repeat (split; [reflexivity|]).
  exact (proj1 (proj2 (connection_falls_back unit (Return tt) (fun _ _ => Return tt)
                         home_u (caseless_fs capital_tag) tt eq_refl eq_refl))
           eq_refl).
Defined.

Lemma resolve_read_only_witness :
  disk (_find_extension_binary stps (posix_fs with_strangers)) = posix_fs with_strangers.
Proof. exact (proj1 (resolve_read_only (posix_fs with_strangers) stps)). Defined.

(* ------------------------------------------------------------------ *)
(** ** What a returned value tells the caller *)

Lemma version_dirs_of_returned (fs : filesystem) (base : Path.t)
      (names : list string) (l : list Path.t) :
  result (version_dirs_of (map (Path.joinpath base) names) fs) = Return l ->
  scan_ok fs base names = true.
Proof.
  revert l. induction names as [|n names IH]; intros l; [reflexivity|].
  cbn [map version_dirs_of].
  destruct (fs_is_dir fs (base // n)) as [isd|e] eqn:Hn.
  - rewrite (bind_return _ _ _ isd) by exact Hn. cbn [result is_dir disk].
    destruct (result (version_dirs_of (map (Path.joinpath base) names) fs))
      as [rest|e] eqn:Hr.
    + intros _. unfold scan_ok. cbn [forallb]. rewrite Hn. cbn [returned andb].
      now apply (IH rest).
    + rewrite (bind_raise _ _ _ e) by exact Hr. discriminate.
  - rewrite (bind_raise _ _ _ e) by exact Hn. discriminate.
Qed.

(** A run that returns has found the base absent, or has listed it, had
    every [is_dir] call return, and returns what the loop returns. *)
Lemma find_extension_binary_returned (fs : filesystem) (base : Path.t)
      (v : option Path.t) :
  result (_find_extension_binary base fs) = Return v ->
  (fs_exists fs base = Return false /\ v = None) \/
  exists names,
    fs_exists fs base = Return true /\
    fs_listdir fs base = Return names /\
    scan_ok fs base names = true /\
    result (first_valid (ordered_dirs fs base names) fs) = Return v.
Proof.
  destruct (fs_exists fs base) as [[|]|e] eqn:Hex.
  - destruct (fs_listdir fs base) as [names|e] eqn:Hls.
    + destruct (result (version_dirs_of (map (Path.joinpath base) names) fs))
        as [l|e] eqn:Hv.
      * pose proof (version_dirs_of_returned _ _ _ _ Hv) as Hscan.
        rewrite (find_extension_binary_scan fs base names Hex Hls Hscan).
        cbn [result]. intros H. right. exists names. auto.
      * unfold _find_extension_binary.
        rewrite (bind_return _ _ _ true) by exact Hex. cbn [negb exists_ disk result].
        rewrite (bind_return _ _ _ (map (Path.joinpath base) names))
          by (cbn [iterdir result]; now rewrite Hls).
        cbn [iterdir disk result].
        rewrite (bind_raise _ _ _ e) by exact Hv. discriminate.
    + unfold _find_extension_binary.
      rewrite (bind_return _ _ _ true) by exact Hex. cbn [negb exists_ disk result].
      rewrite (bind_raise _ _ _ e) by (cbn [iterdir result]; now rewrite Hls).
      discriminate.
  - rewrite (resolve_missing_base_run fs base Hex). cbn [result].
    intros [= <-]. now left.
  - unfold _find_extension_binary.
    rewrite (bind_raise _ _ _ e) by exact Hex. discriminate.
Qed.

(** The loop returns a path: the list splits at the directory it is in,
    every directory before it was checked and lacks the artifact, and no
    directory after it was checked. *)
Lemma first_valid_some (fs : filesystem) (l : list Path.t) (p : Path.t) :
  result (first_valid l fs) = Return (Some p) ->
  exists l1 d l2,
    l = l1 ++ d :: l2 /\ p = d // artifact_filename /\
    fs_exists fs p = Return true /\
    (forall d', In d' l1 -> fs_exists fs (d' // artifact_filename) = Return false) /\
    trace (first_valid l fs) =
      map (fun d => Exists (d // artifact_filename)) (l1 ++ [d]).
Proof.
  induction l as [|d l IH]; [discriminate|].
  cbn [first_valid]. unfold bind, exists_. cbn [result disk trace].
  destruct (fs_exists fs (d // artifact_filename)) as [[|]|e] eqn:E;
    cbn [result trace ret app]; [| |discriminate].
  - intros [= <-]. exists [], d, l. repeat split; auto. contradiction.
  - intros H. destruct (IH H) as (l1 & d' & l2 & -> & -> & Hex & Hmiss & Htr).
    exists (d :: l1), d', l2. repeat split; auto.
    + intros x [<-|Hx]; auto.
    + cbn [app map]. now rewrite Htr.
Qed.

Lemma first_valid_none (fs : filesystem) (l : list Path.t) :
  result (first_valid l fs) = Return None ->
  forall d, In d l -> fs_exists fs (d // artifact_filename) = Return false.
Proof.
  induction l as [|d l IH]; [contradiction|].
  cbn [first_valid]. unfold bind, exists_. cbn [result disk trace].
  destruct (fs_exists fs (d // artifact_filename)) as [[|]|e] eqn:E;
    cbn [result ret]; try discriminate.
  intros H x [<-|Hx]; auto.
Qed.

Lemma visited_all (fs : filesystem) (l : list Path.t) :
  (forall d, In d l -> fs_exists fs (d // artifact_filename) = Return false) ->
  visited fs l = l.
Proof.
  induction l as [|d l IH]; intros H; [reflexivity|].
  cbn [visited]. unfold has_artifact.
  rewrite (H d (or_introl eq_refl)). cbn [holds]. f_equal.
  apply IH. intros x Hx. apply H. now right.
Qed.

Lemma keeps_inv (fs : filesystem) (base : Path.t) (n : string) :
  keeps fs (base // n) = true ->
  fs_is_dir fs (base // n) = Return true /\ startswith n "v" = true.
Proof.
  unfold keeps. rewrite path_name_join. intros H.
  apply andb_prop in H as [Hd Hv]. split; [|exact Hv].
  unfold holds in Hd. now destruct (fs_is_dir fs (base // n)) as [[|]|].
Qed.

Lemma keeps_intro (fs : filesystem) (base : Path.t) (n : string) :
  fs_is_dir fs (base // n) = Return true -> startswith n "v" = true ->
  keeps fs (base // n) = true.
Proof. intros Hd Hv. unfold keeps. now rewrite Hd, path_name_join, Hv. Qed.

Lemma sorted_split (R : Path.t -> Path.t -> Prop) (l1 l2 : list Path.t) (d : Path.t) :
  StronglySorted R (l1 ++ d :: l2) ->
  Forall (fun x => R x d) l1 /\ Forall (R d) l2.
Proof.
  induction l1 as [|x l1 IH]; cbn [app]; intros H;
    apply StronglySorted_inv in H as [Hs Hx].
  - split; [constructor|exact Hx].
  - destruct (IH Hs) as [H1 H2]. split; [|exact H2].
    constructor; [|exact H1].
    rewrite Forall_forall in Hx. apply Hx, in_or_app. right. now left.
Qed.

Lemma string_leb_refl (s : string) : (s <=? s)%string = true.
Proof. unfold String.leb. now rewrite string_compare_refl. Qed.

Lemma find_extension_binary_some (fs : filesystem) (base p : Path.t) :
  result (_find_extension_binary base fs) = Return (Some p) ->
  exists names tag,
    fs_exists fs base = Return true /\
    fs_listdir fs base = Return names /\
    In tag (kept_names fs base names) /\
    p = base // tag // artifact_filename /\
    fs_exists fs p = Return true.
Proof.
  intros H. apply find_extension_binary_returned in H as [[_ H]|H]; [discriminate|].
  destruct H as (names & Hex & Hls & Hscan & Hloop).
  apply first_valid_result in Hloop as (d & Hd & -> & Hp).
  apply ordered_dirs_in in Hd as (tag & -> & Htag).
  exists names, tag. repeat split; assumption.
Qed.

(** X1.  Whenever [_find_extension_binary] returns a path, with no
    assumption on the file system: the base exists and was listed, the path
    is [base / tag / stps.duckdb_extension] for a listed child [tag] that
    is a directory and whose name starts with [v], and the path exists. *)
Theorem detected_path_is_sound (fs : filesystem) (base p : Path.t) :
  result (_find_extension_binary base fs) = Return (Some p) ->
  exists names tag,
    fs_exists fs base = Return true /\
    fs_listdir fs base = Return names /\
    In tag names /\
    fs_is_dir fs (base // tag) = Return true /\
    startswith tag "v" = true /\
    p = base // tag // artifact_filename /\
    fs_exists fs p = Return true.
Proof.
  intros H.
  destruct (find_extension_binary_some _ _ _ H) as (names & tag & Hex & Hls & Htag & Hp & Hart).
  apply kept_names_in in Htag as [Hin Hk]. apply keeps_inv in Hk as [Hdir Hv].
  exists names, tag. repeat split; assumption.
Qed.

Lemma detected_path_is_sound_witness :
  result (_find_extension_binary stps (posix_fs with_strangers))
  = Return (Some (stps // "v1.9.0" // artifact_filename)) /\
  exists names tag,
    fs_exists (posix_fs with_strangers) stps = Return true /\
    fs_listdir (posix_fs with_strangers) stps = Return names /\
    In tag names /\
    fs_is_dir (posix_fs with_strangers) (stps // tag) = Return true /\
    startswith tag "v" = true /\
    stps // "v1.9.0" // artifact_filename = stps // tag // artifact_filename /\
    fs_exists (posix_fs with_strangers) (stps // "v1.9.0" // artifact_filename)
    = Return true.
Proof.
  split; [reflexivity|].
  apply (detected_path_is_sound (posix_fs with_strangers) stps). reflexivity.
Defined.

(** X2.  Whenever [_find_extension_binary] returns [None], with no
    assumption on the file system: either the base does not exist, or it
    was listed, every [is_dir] call returned, and every listed directory
    whose name starts with [v] was checked and lacks the artifact. *)
Theorem none_means_not_installed (fs : filesystem) (base : Path.t) :
  result (_find_extension_binary base fs) = Return None ->
  fs_exists fs base = Return false \/
  exists names,
    fs_exists fs base = Return true /\
    fs_listdir fs base = Return names /\
    scan_ok fs base names = true /\
    forall tag, In tag names ->
      fs_is_dir fs (base // tag) = Return true ->
      startswith tag "v" = true ->
      fs_exists fs (base // tag // artifact_filename) = Return false /\
      In (Exists (base // tag // artifact_filename))
         (trace (_find_extension_binary base fs)).
Proof.
  intros H. apply find_extension_binary_returned in H as [[H _]|H]; [now left|].
  destruct H as (names & Hex & Hls & Hscan & Hloop). right.
  exists names. repeat split; try assumption.
  - apply (first_valid_none _ _ Hloop (base // tag)).
    apply (Permutation_in _ (Permutation_sym (list_sort_reverse_perm _))).
    apply in_map, kept_names_in. split; [assumption|now apply keeps_intro].
  - rewrite (find_extension_binary_scan fs base names Hex Hls Hscan). cbn [trace].
    right; right. apply in_or_app. right.
    assert (Hin : In (base // tag) (ordered_dirs fs base names)).
    { apply (Permutation_in _ (Permutation_sym (list_sort_reverse_perm _))).
      apply in_map, kept_names_in. split; [assumption|now apply keeps_intro]. }
    assert (Hok : forallb (fun d => returned (fs_exists fs (d // artifact_filename)))
                          (ordered_dirs fs base names) = true).
    { apply forallb_forall. intros d Hd.
      now rewrite (first_valid_none _ _ Hloop d Hd). }
    rewrite (first_valid_run _ _ Hok). cbn [trace].
    rewrite (visited_all _ _ (first_valid_none _ _ Hloop)). now apply (in_map (fun d => Exists (d // artifact_filename))) in Hin.
Qed.

Lemma none_means_not_installed_witness :
  result (_find_extension_binary stps (posix_fs nothing_usable)) = Return None /\
  fs_exists (posix_fs nothing_usable) (stps // "v2.0.0" // artifact_filename)
  = Return false.
Proof.
  split; [reflexivity|].
  destruct (none_means_not_installed (posix_fs nothing_usable) stps eq_refl)
    as [H|(names & _ & Hls & _ & H)]; [discriminate H|].
  injection Hls as <-.
  exact (proj1 (H "v2.0.0" (or_introl eq_refl) eq_refl eq_refl)).
Defined.

Lemma path_join_cancel (p q : Path.t) (c : string) : p // c = q // c -> p = q.
Proof.
  intros H. apply (f_equal Path.parent) in H. now rewrite !path_parent_join in H.
Qed.

Lemma artifact_is_not_base (base : Path.t) (m a : string) : base // m // a <> base.
Proof.
  intros H. apply (f_equal (@List.length string)) in H.
  unfold Path.joinpath in H. rewrite !List.length_app in H.
  cbn [List.length] in H. lia.
Qed.

(** X3.  The tag of a returned path is the textually greatest among the
    listed version directories that hold the artifact, and the run has
    checked for the artifact in directories with that tag or a textually
    greater one only: nothing below the hit is looked at. *)
Theorem detected_tag_is_greatest (fs : filesystem) (base : Path.t)
        (names : list string) (tag : string) :
  fs_listdir fs base = Return names ->
  result (_find_extension_binary base fs)
  = Return (Some (base // tag // artifact_filename)) ->
  (forall m, In m names ->
     fs_is_dir fs (base // m) = Return true -> startswith m "v" = true ->
     fs_exists fs (base // m // artifact_filename) = Return true ->
     (m <=? tag)%string = true) /\
  (forall m, In (Exists (base // m // artifact_filename))
                (trace (_find_extension_binary base fs)) ->
     (tag <=? m)%string = true).
Proof.
  intros Hls H.
  apply find_extension_binary_returned in H as [[_ H]|H]; [discriminate|].
  destruct H as (names' & Hex & Hls' & Hscan & Hloop).
  rewrite Hls in Hls'. injection Hls' as <-.
  pose proof (list_sort_reverse_sorted
                (map (Path.joinpath base) (kept_names fs base names))) as Hsorted.
  fold (ordered_dirs fs base names) in Hsorted.
  apply first_valid_some in Hloop as (l1 & d & l2 & Hsplit & Hp & _ & Hmiss & Htr).
  apply path_join_cancel in Hp. subst d.
  rewrite Hsplit in Hsorted. apply sorted_split in Hsorted as [Hbefore Hafter].
  rewrite Forall_forall in Hbefore, Hafter.
  split.
  - intros m Hm Hdir Hv Hart.
    assert (Hin : In (base // m) (ordered_dirs fs base names)).
    { apply (Permutation_in _ (Permutation_sym (list_sort_reverse_perm _))).
      apply in_map, kept_names_in. split; [assumption|now apply keeps_intro]. }
    rewrite Hsplit in Hin. apply in_app_or in Hin as [Hin|[Hin|Hin]].
    + rewrite (Hmiss _ Hin) in Hart. discriminate.
    + apply path_join_inj in Hin. subst m. apply string_leb_refl.
    + apply Hafter in Hin. now apply desc_siblings in Hin.
  - intros m Hm.
    rewrite (find_extension_binary_scan fs base names Hex Hls Hscan) in Hm.
    cbn [trace] in Hm. destruct Hm as [Hm|[Hm|Hm]].
    + injection Hm as Hm. symmetry in Hm. now apply artifact_is_not_base in Hm.
    + discriminate.
    + apply in_app_or in Hm as [Hm|Hm].
      * apply in_map_iff in Hm as (x & Hx & _). discriminate.
      * rewrite Htr in Hm. apply in_map_iff in Hm as (x & Hx & Hin).
        injection Hx as Hx. apply path_join_cancel in Hx. subst x.
        apply in_app_or in Hin as [Hin|[Hin|[]]].
        -- apply Hbefore in Hin. now apply desc_siblings in Hin.
        -- apply path_join_inj in Hin. subst m. apply string_leb_refl.
Qed.

Lemma detected_tag_is_greatest_witness :
  fs_listdir (posix_fs with_strangers) stps
  = Return ["v1.9.0"; "nightly"; "v"; "notes.txt"; "v2.0.0"] /\
  result (_find_extension_binary stps (posix_fs with_strangers))
  = Return (Some (stps // "v1.9.0" // artifact_filename)) /\
  ("v1.9.0" <=? "v2.0.0")%string = true.
Proof.
  repeat (split; [reflexivity|]).
  refine (proj2 (detected_tag_is_greatest (posix_fs with_strangers) stps _ "v1.9.0"
                   eq_refl eq_refl) "v2.0.0" _).
  cbn. auto 10.
Defined.

Lemma filter_perm {A} (f : A -> bool) (l l' : list A) :
  Permutation l l' -> Permutation (filter f l) (filter f l').
Proof.
  induction 1 as [|x l l' Hp IH|x y l|l l' l'' H1 IH1 H2 IH2]; cbn [filter].
  - constructor.
  - destruct (f x); [now constructor|exact IH].
  - destruct (f x), (f y); try reflexivity. apply perm_swap.
  - now transitivity (filter f l').
Qed.

(** X4.  The order in which the operating system lists the base does not
    matter: on two states that differ only in the order of the listing,
    and in which the [is_dir] calls return, the result is the same. *)
Theorem listing_order_is_irrelevant (fs : filesystem) (base : Path.t)
        (names names' : list string)
        (listdir' : Path.t -> outcome (list string)) :
  fs_exists fs base = Return true ->
  fs_listdir fs base = Return names ->
  listdir' base = Return names' ->
  Permutation names names' ->
  scan_ok fs base names = true ->
  result (_find_extension_binary base (mkFS (fs_exists fs) (fs_is_dir fs) listdir'))
  = result (_find_extension_binary base fs).
Proof.
  intros Hex Hls Hls' Hperm Hscan.
  set (fs' := mkFS (fs_exists fs) (fs_is_dir fs) listdir').
  assert (Hscan' : scan_ok fs' base names' = true).
  { unfold scan_ok in *. rewrite forallb_forall in *. intros n Hn.
    apply (Hscan n). now apply (Permutation_in _ (Permutation_sym Hperm)). }
  assert (Hord : ordered_dirs fs' base names' = ordered_dirs fs base names).
  { unfold ordered_dirs at 2. apply list_sort_reverse_unique.
    - unfold ordered_dirs. rewrite list_sort_reverse_perm.
      apply Permutation_map. unfold kept_names.
      apply Permutation_sym. exact (filter_perm _ _ _ Hperm).
    - apply list_sort_reverse_sorted. }
  rewrite (find_extension_binary_scan fs' base names' Hex Hls' Hscan').
  rewrite (find_extension_binary_scan fs base names Hex Hls Hscan).
  cbn [result]. rewrite Hord. now apply first_valid_ext.
Qed.

Lemma listing_order_is_irrelevant_witness :
  fs_listdir (posix_fs newest_incomplete) stps = Return ["v2.0.0"; "v1.9.0"] /\
  result (_find_extension_binary stps
            (mkFS (fs_exists (posix_fs newest_incomplete))
                  (fs_is_dir (posix_fs newest_incomplete))
                  (fun _ => Return ["v1.9.0"; "v2.0.0"])))
  = result (_find_extension_binary stps (posix_fs newest_incomplete)).
Proof.
  split; [reflexivity|].
  apply (listing_order_is_irrelevant (posix_fs newest_incomplete) stps
           ["v2.0.0"; "v1.9.0"] ["v1.9.0"; "v2.0.0"]); try reflexivity.
  apply perm_swap.
Defined.

(* ------------------------------------------------------------------ *)
(** ** [get_duckdb_connection], case by case *)

Section Connection.

Variable Conn : Type.
Variable duckdb_connect : outcome Conn.
Variable execute_load : Conn -> Path.t -> outcome unit.
Variable home : Path.t.
Variable fs : filesystem.

Lemma connection_connect_raises (e : exn) :
  duckdb_connect = Raise e ->
  get_duckdb_connection Conn duckdb_connect execute_load home fs
  = mkRun (Raise e) fs [].
Proof.
  intros Hc. unfold get_duckdb_connection.
  now rewrite (bind_raise _ _ _ e) by exact Hc.
Qed.

Lemma connection_detection_raises (conn : Conn) (e : exn) :
  duckdb_connect = Return conn ->
  result (_find_extension_binary (extensions_base_of home) fs) = Raise e ->
  get_duckdb_connection Conn duckdb_connect execute_load home fs
  = mkRun (Raise e) fs (trace (_find_extension_binary (extensions_base_of home) fs)).
Proof.
  intros Hc Hd. unfold get_duckdb_connection.
  rewrite (bind_return _ _ _ conn) by exact Hc. cbn [lift disk trace result app].
  rewrite (bind_raise _ _ _ e) by exact Hd.
  now rewrite (find_extension_binary_disk _ fs).
Qed.

Lemma connection_detected (conn : Conn) (p : Path.t) :
  duckdb_connect = Return conn ->
  result (_find_extension_binary (extensions_base_of home) fs) = Return (Some p) ->
  get_duckdb_connection Conn duckdb_connect execute_load home fs =
  mkRun (match execute_load conn p with
         | Return _ => Return conn
         | Raise (IOException e) => Raise (IOException (load_failure_message p e))
         | Raise e => Raise e
         end) fs (trace (_find_extension_binary (extensions_base_of home) fs)).
Proof.
  intros Hc Hd. unfold get_duckdb_connection.
  rewrite (bind_return _ _ _ conn) by exact Hc. cbn [lift disk trace result app].
  rewrite (bind_return _ _ _ (Some p)) by exact Hd. cbn [disk trace result].
  rewrite (find_extension_binary_disk _ fs).
  rewrite (bind_return (ret p) _ _ p) by reflexivity.
  cbn [ret disk trace result].
  destruct (execute_load conn p) as [u|[]]; cbn; now rewrite ?app_nil_r.
Qed.

Lemma connection_not_detected (conn : Conn) :
  duckdb_connect = Return conn ->
  result (_find_extension_binary (extensions_base_of home) fs) = Return None ->
  get_duckdb_connection Conn duckdb_connect execute_load home fs =
  mkRun (match fs_exists fs (fallback_path home) with
         | Return true =>
             match execute_load conn (fallback_path home) with
             | Return _ => Return conn
             | Raise (IOException e) =>
                 Raise (IOException (load_failure_message (fallback_path home) e))
             | Raise e => Raise e
             end
         | Return false =>
             Raise (FileNotFoundError (not_installed_message (fallback_path home)))
         | Raise e => Raise e
         end) fs (trace (_find_extension_binary (extensions_base_of home) fs) ++ [Exists (fallback_path home)]).
Proof.
  intros Hc Hd. unfold get_duckdb_connection.
  rewrite (bind_return _ _ _ conn) by exact Hc. cbn [lift disk trace result app].
  rewrite (bind_return _ _ _ None) by exact Hd. cbn [disk trace result].
  rewrite (find_extension_binary_disk _ fs).
  change (extensions_base_of home // "v1.4.3" // "stps.duckdb_extension")
    with (fallback_path home).
  destruct (fs_exists fs (fallback_path home)) as [[|]|e] eqn:Hfb.
  - rewrite (bind_return _ _ _ (fallback_path home))
      by (rewrite (bind_return _ _ _ true) by exact Hfb; reflexivity).
    rewrite (bind_return (exists_ (fallback_path home)) _ _ true) by exact Hfb.
    cbn [negb ret exists_ disk trace result app].
    destruct (execute_load conn (fallback_path home)) as [u|[]];
      cbn; now rewrite ?app_nil_r.
  - rewrite (bind_raise _ _ _ (FileNotFoundError (not_installed_message (fallback_path home))))
      by (rewrite (bind_return _ _ _ false) by exact Hfb; reflexivity).
    rewrite (bind_return (exists_ (fallback_path home)) _ _ false) by exact Hfb.
    reflexivity.
  - rewrite (bind_raise _ _ _ e)
      by (rewrite (bind_raise _ _ _ e) by exact Hfb; reflexivity).
    rewrite (bind_raise (exists_ (fallback_path home)) _ _ e) by exact Hfb.
    reflexivity.
Qed.

End Connection.

(** X5.  Failures before the load.  If [duckdb.connect] raises, the
    exception is the result and the file system is not touched at all; if
    detection raises, its exception is the result and the calls made are
    those of detection, so the fixed [v1.4.3] path is not tried and the
    driver is not asked to load anything, whatever it would have done. *)
Theorem connection_early_failures
        (Conn : Type) (duckdb_connect : outcome Conn)
        (execute_load : Conn -> Path.t -> outcome unit)
        (home : Path.t) (fs : filesystem) (e : exn) :
  (duckdb_connect = Raise e ->
   get_duckdb_connection Conn duckdb_connect execute_load home fs
   = mkRun (Raise e) fs []) /\
  (forall conn,
     duckdb_connect = Return conn ->
     result (_find_extension_binary (extensions_base_of home) fs) = Raise e ->
     forall execute_load',
       get_duckdb_connection Conn duckdb_connect execute_load' home fs
       = mkRun (Raise e) fs
               (trace (_find_extension_binary (extensions_base_of home) fs))).
Proof.
  split.
  - apply connection_connect_raises.
  - intros conn Hc Hd execute_load'. now apply connection_detection_raises with conn.
Qed.

Lemma connection_early_failures_witness :
  result (_find_extension_binary (extensions_base_of home_u)
            (unreadable stps (posix_fs single_version)))
  = Raise (PermissionError stps) /\
  get_duckdb_connection unit (Return tt) (fun _ _ => Return tt) home_u
    (unreadable stps (posix_fs single_version))
  = mkRun (Raise (PermissionError stps)) (unreadable stps (posix_fs single_version))
          [Exists stps; Iterdir stps].
Proof.
  split; [reflexivity|].
  exact (proj2 (connection_early_failures unit (Return tt) (fun _ _ => Return tt)
                  home_u (unreadable stps (posix_fs single_version))
                  (PermissionError stps))
           tt eq_refl eq_refl (fun _ _ => Return tt)).
Defined.

(** X6.  When detection returns a path, that path is what the driver is
    asked to load and the fixed [v1.4.3] path is not checked: the calls
    made are those of detection.  A load that returns gives the
    connection; a [duckdb.IOException] of the load is raised again as a
    [duckdb.IOException] whose text names the path and carries the
    original text; any other exception of the load passes unchanged. *)
Theorem connection_loads_detected
        (Conn : Type) (duckdb_connect : outcome Conn)
        (execute_load : Conn -> Path.t -> outcome unit)
        (home : Path.t) (fs : filesystem) (conn : Conn) (p : Path.t) :
  duckdb_connect = Return conn ->
  result (_find_extension_binary (extensions_base_of home) fs) = Return (Some p) ->
  let r := get_duckdb_connection Conn duckdb_connect execute_load home fs in
  trace r = trace (_find_extension_binary (extensions_base_of home) fs) /\
  (execute_load conn p = Return tt -> result r = Return conn) /\
  (forall original, execute_load conn p = Raise (IOException original) ->
     result r = Raise (IOException (load_failure_message p original))) /\
  (forall e, execute_load conn p = Raise e ->
     (forall original, e <> IOException original) -> result r = Raise e).
Proof.
  intros Hc Hd r. subst r. rewrite (connection_detected _ _ _ _ _ conn p Hc Hd).
  cbn [trace result]. repeat split.
  - intros ->. reflexivity.
  - intros original ->. reflexivity.
  - intros e -> Hne. destruct e; try reflexivity. now destruct (Hne msg).
Qed.

Lemma connection_loads_detected_witness :
  result (_find_extension_binary (extensions_base_of home_u) (posix_fs two_patch_levels))
  = Return (Some (stps // "v1.3.0" // artifact_filename)) /\
  result (get_duckdb_connection unit (Return tt)
            (fun _ _ => Raise (IOException "version mismatch"))
            home_u (posix_fs two_patch_levels))
  = Raise (IOException (load_failure_message (stps // "v1.3.0" // artifact_filename)
                                             "version mismatch")).
Proof.
  split; [reflexivity|].
  exact (proj1 (proj2 (proj2
           (connection_loads_detected unit (Return tt)
              (fun _ _ => Raise (IOException "version mismatch"))
              home_u (posix_fs two_patch_levels) tt
              (stps // "v1.3.0" // artifact_filename) eq_refl eq_refl)))
           "version mismatch" eq_refl).
Defined.

(** X7.  A connection is returned only after a load that returned, of a
    file that the run has seen to exist: the connection is the one
    [duckdb.connect] gave, and the loaded path is
    [<home>/.duckdb/extensions/stps/<tag>/stps.duckdb_extension] with a
    [tag] that starts with [v], either the detected one or, when detection
    returned [None], [v1.4.3]. *)
Theorem connection_returned_means_loaded
        (Conn : Type) (duckdb_connect : outcome Conn)
        (execute_load : Conn -> Path.t -> outcome unit)
        (home : Path.t) (fs : filesystem) (c : Conn) :
  result (get_duckdb_connection Conn duckdb_connect execute_load home fs) = Return c ->
  duckdb_connect = Return c /\
  exists tag,
    startswith tag "v" = true /\
    fs_exists fs (extensions_base_of home // tag // artifact_filename) = Return true /\
    (exists u, execute_load c (extensions_base_of home // tag // artifact_filename)
               = Return u) /\
    (result (_find_extension_binary (extensions_base_of home) fs)
     = Return (Some (extensions_base_of home // tag // artifact_filename)) \/
     (result (_find_extension_binary (extensions_base_of home) fs) = Return None /\
      tag = "v1.4.3")).
Proof.
  intros H.
  destruct duckdb_connect as [conn|e] eqn:Hc.
  2:{ rewrite (connection_connect_raises _ _ _ _ _ e eq_refl) in H. discriminate. }
  destruct (result (_find_extension_binary (extensions_base_of home) fs))
    as [[p|]|e] eqn:Hd.
  - rewrite (connection_detected _ _ _ _ _ conn p eq_refl Hd) in H. cbn [result] in H.
    destruct (find_extension_binary_some _ _ _ Hd)
      as (names & tag & _ & _ & Hk & -> & Hex).
    apply kept_names_in in Hk as [_ Hk]. apply keeps_inv in Hk as [_ Hv].
    destruct (execute_load conn (extensions_base_of home // tag // artifact_filename))
      as [u|e] eqn:Hl.
    + injection H as <-. split; [reflexivity|]. exists tag. repeat split; eauto.
    + destruct e; discriminate.
  - rewrite (connection_not_detected _ _ _ _ _ conn eq_refl Hd) in H. cbn [result] in H.
    destruct (fs_exists fs (fallback_path home)) as [[|]|e] eqn:Hfb; try discriminate.
    destruct (execute_load conn (fallback_path home)) as [u|e] eqn:Hl.
    + injection H as <-. split; [reflexivity|]. exists "v1.4.3".
      repeat split; eauto.
    + destruct e; discriminate.
  - rewrite (connection_detection_raises _ _ _ _ _ conn e eq_refl Hd) in H.
    discriminate.
Qed.

Lemma connection_returned_means_loaded_witness :
  result (get_duckdb_connection unit (Return tt) (fun _ _ => Return tt) home_u
            (posix_fs single_version)) = Return tt /\
  exists tag,
    startswith tag "v" = true /\
    fs_exists (posix_fs single_version)
      (extensions_base_of home_u // tag // artifact_filename) = Return true.
Proof.
  split; [reflexivity|].
  destruct (connection_returned_means_loaded unit (Return tt) (fun _ _ => Return tt)
              home_u (posix_fs single_version) tt eq_refl)
    as (_ & tag & Hv & Hex & _).
  exists tag. split; assumption.
Defined.

Lemma allowed_call_confined (fs : filesystem) (base : Path.t) (c : call) :
  allowed_call fs base c -> path_of c = base \/ below base (path_of c).
Proof.
  intros [->|[->|(names & n & _ & _ & [->| ->])]]; cbn [path_of]; auto; right.
  - exists n, []. reflexivity.
  - exists n, [artifact_filename]. unfold Path.joinpath.
    now rewrite <- app_assoc.
Qed.

(** X8.  The [pathlib] calls of [get_duckdb_connection], whatever the
    driver does: every call made is one that detection may make or the
    existence check of the fixed [v1.4.3] path, so none is made on a path
    outside [<home>/.duckdb/extensions/stps]. *)
Theorem connection_calls_are_confined
        (Conn : Type) (duckdb_connect : outcome Conn)
        (execute_load : Conn -> Path.t -> outcome unit)
        (home : Path.t) (fs : filesystem) (c : call) :
  In c (trace (get_duckdb_connection Conn duckdb_connect execute_load home fs)) ->
  (allowed_call fs (extensions_base_of home) c \/ c = Exists (fallback_path home)) /\
  (path_of c = extensions_base_of home \/
   below (extensions_base_of home) (path_of c)).
Proof.
  assert (Hfb : below (extensions_base_of home) (fallback_path home)).
  { exists "v1.4.3", ["stps.duckdb_extension"]. unfold fallback_path, Path.joinpath.
    now rewrite <- app_assoc. }
  assert (Hgoal : forall c',
            allowed_call fs (extensions_base_of home) c' \/
            c' = Exists (fallback_path home) ->
            (allowed_call fs (extensions_base_of home) c' \/
             c' = Exists (fallback_path home)) /\
            (path_of c' = extensions_base_of home \/
             below (extensions_base_of home) (path_of c'))).
  { intros c' H. split; [exact H|].
    destruct H as [H| ->]; [now apply (allowed_call_confined fs)|now right]. }
  destruct duckdb_connect as [conn|e] eqn:Hc.
  2:{ rewrite (connection_connect_raises _ _ _ _ _ e eq_refl). contradiction. }
  destruct (result (_find_extension_binary (extensions_base_of home) fs))
    as [[p|]|e] eqn:Hd.
  - rewrite (connection_detected _ _ _ _ _ conn p eq_refl Hd). cbn [trace].
    intros Hin. apply Hgoal. left. now apply find_extension_binary_allowed.
  - rewrite (connection_not_detected _ _ _ _ _ conn eq_refl Hd). cbn [trace].
    intros Hin. apply Hgoal.
    apply in_app_or in Hin as [Hin|[<-|[]]]; [left|now right].
    now apply find_extension_binary_allowed.
  - rewrite (connection_detection_raises _ _ _ _ _ conn e eq_refl Hd). cbn [trace].
    intros Hin. apply Hgoal. left. now apply find_extension_binary_allowed.
Qed.

Lemma connection_calls_are_confined_witness :
  In (Exists (fallback_path home_u))
     (trace (get_duckdb_connection unit (Return tt) (fun _ _ => Return tt) home_u
               (caseless_fs capital_tag))) /\
  below (extensions_base_of home_u) (fallback_path home_u).
Proof.
  assert (Hin : In (Exists (fallback_path home_u))
                   (trace (get_duckdb_connection unit (Return tt) (fun _ _ => Return tt)
                             home_u (caseless_fs capital_tag))))
    by (vm_compute; do 3 right; left; reflexivity).
  split; [exact Hin|].
  destruct (proj2 (connection_calls_are_confined unit (Return tt) (fun _ _ => Return tt)
                     home_u (caseless_fs capital_tag) _ Hin)) as [H|H];
    [discriminate H|exact H].
Defined.

(* ------------------------------------------------------------------ *)
(** ** [get_extension_version] and [check_extension_installed] *)

Lemma get_extension_version_run (home : Path.t) (fs : filesystem) :
  get_extension_version home fs =
  mkRun (match result (_find_extension_binary (extensions_base_of home) fs) with
         | Return (Some p) => Return (Some (Path.name (Path.parent p)))
         | Return None => Return None
         | Raise e => Raise e
         end) fs (trace (_find_extension_binary (extensions_base_of home) fs)).
Proof.
  unfold get_extension_version.
  destruct (result (_find_extension_binary (extensions_base_of home) fs))
    as [[p|]|e] eqn:Hd.
  - rewrite (bind_return _ _ _ (Some p)) by exact Hd.
    cbn. now rewrite find_extension_binary_disk, app_nil_r.
  - rewrite (bind_return _ _ _ None) by exact Hd.
    cbn. now rewrite find_extension_binary_disk, app_nil_r.
  - rewrite (bind_raise _ _ _ e) by exact Hd.
    now rewrite find_extension_binary_disk.
Qed.

Lemma check_extension_installed_run (home : Path.t) (fs : filesystem) :
  check_extension_installed home fs =
  mkRun (match result (_find_extension_binary (extensions_base_of home) fs) with
         | Return (Some _) => Return true
         | Return None => Return false
         | Raise e => Raise e
         end) fs (trace (_find_extension_binary (extensions_base_of home) fs)).
Proof.
  unfold check_extension_installed.
  destruct (result (_find_extension_binary (extensions_base_of home) fs))
    as [[p|]|e] eqn:Hd.
  - rewrite (bind_return _ _ _ (Some p)) by exact Hd.
    cbn. now rewrite find_extension_binary_disk, app_nil_r.
  - rewrite (bind_return _ _ _ None) by exact Hd.
    cbn. now rewrite find_extension_binary_disk, app_nil_r.
  - rewrite (bind_raise _ _ _ e) by exact Hd.
    now rewrite find_extension_binary_disk.
Qed.

(** X10.  [get_extension_version] returns a tag exactly when detection
    returns the artifact path inside the directory of that name, so the
    name read back from the path is the name of the directory that was
    found; a reported tag starts with [v], names a directory listed in the
    base, and that directory holds the artifact.  It returns [None]
    exactly when detection does, and raises exactly what detection
    raises. *)
Theorem version_is_detected_tag (home : Path.t) (fs : filesystem) :
  (forall tag,
     result (get_extension_version home fs) = Return (Some tag) <->
     result (_find_extension_binary (extensions_base_of home) fs)
     = Return (Some (extensions_base_of home // tag // artifact_filename))) /\
  (forall tag,
     result (get_extension_version home fs) = Return (Some tag) ->
     startswith tag "v" = true /\
     fs_is_dir fs (extensions_base_of home // tag) = Return true /\
     fs_exists fs (extensions_base_of home // tag // artifact_filename) = Return true /\
     exists names, fs_listdir fs (extensions_base_of home) = Return names /\ In tag names) /\
  (result (get_extension_version home fs) = Return None <->
   result (_find_extension_binary (extensions_base_of home) fs) = Return None) /\
  (forall e,
     result (get_extension_version home fs) = Raise e <->
     result (_find_extension_binary (extensions_base_of home) fs) = Raise e).
Proof.
  rewrite get_extension_version_run. cbn [result].
  assert (Hshape : forall tag p,
            result (_find_extension_binary (extensions_base_of home) fs)
            = Return (Some p) ->
            Path.name (Path.parent p) = tag ->
            p = extensions_base_of home // tag // artifact_filename).
  { intros tag p Hd Hn.
    destruct (find_extension_binary_some _ _ _ Hd) as (names & n & _ & _ & _ & -> & _).
    rewrite path_parent_join, path_name_join in Hn. now subst n. }
  destruct (result (_find_extension_binary (extensions_base_of home) fs))
    as [[p|]|e] eqn:Hd.
  - split; [|split; [|split]].
    + intros tag. split.
      * intros [= Hn]. now rewrite (Hshape tag p eq_refl Hn).
      * intros [= ->]. now rewrite path_parent_join, path_name_join.
    + intros tag [= Hn]. pose proof (Hshape tag p eq_refl Hn) as ->.
      destruct (find_extension_binary_some _ _ _ Hd)
        as (names & n & _ & Hls & Hk & Hp & Hex).
      apply kept_names_in in Hk as [Hin Hk]. apply keeps_inv in Hk as [Hdir Hv].
      apply path_join_cancel, path_join_inj in Hp. subst n.
      repeat split; eauto.
    + split; discriminate.
    + intros e. split; discriminate.
  - split; [|split; [|split]].
    + intros tag. split; discriminate.
    + intros tag. discriminate.
    + split; auto.
    + intros e. split; discriminate.
  - split; [|split; [|split]].
    + intros tag. split; discriminate.
    + intros tag. discriminate.
    + split; discriminate.
    + intros e'. split; intros [= ->]; reflexivity.
Qed.

(** X11.  [check_extension_installed] answers [True] exactly when
    [get_extension_version] reports a tag and [False] exactly when it
    reports [None]; when the file system fails it does not answer [False]
    but raises what [get_extension_version] raises.  Both leave the disk as
    it was. *)
Theorem check_agrees_with_version (home : Path.t) (fs : filesystem) :
  (result (check_extension_installed home fs) = Return true <->
   exists tag, result (get_extension_version home fs) = Return (Some tag)) /\
  (result (check_extension_installed home fs) = Return false <->
   result (get_extension_version home fs) = Return None) /\
  (forall e,
     result (check_extension_installed home fs) = Raise e <->
     result (get_extension_version home fs) = Raise e) /\
  disk (check_extension_installed home fs) = fs /\
  disk (get_extension_version home fs) = fs.
Proof.
  rewrite check_extension_installed_run, get_extension_version_run.
  cbn [result disk].
  destruct (result (_find_extension_binary (extensions_base_of home) fs))
    as [[p|]|e]; repeat split; try discriminate; eauto;
    try (intros [tag H]; discriminate); try congruence.
Qed.

(** X9.  The version that is reported is the version that is loaded: when
    [get_extension_version] reports a tag, a connection attempt on the
    same state asks the driver to load the artifact of that tag, and its
    outcome is the outcome of that load.  When it reports [None], a
    connection can still be returned, and then what was loaded is the
    artifact at the fixed [v1.4.3] path. *)
Theorem reported_version_is_loaded
        (Conn : Type) (duckdb_connect : outcome Conn)
        (execute_load : Conn -> Path.t -> outcome unit)
        (home : Path.t) (fs : filesystem) :
  (forall tag conn,
     result (get_extension_version home fs) = Return (Some tag) ->
     duckdb_connect = Return conn ->
     result (get_duckdb_connection Conn duckdb_connect execute_load home fs) =
     match execute_load conn (extensions_base_of home // tag // artifact_filename) with
     | Return _ => Return conn
     | Raise (IOException e) =>
         Raise (IOException
                  (load_failure_message
                     (extensions_base_of home // tag // artifact_filename) e))
     | Raise e => Raise e
     end) /\
  (forall c,
     result (get_extension_version home fs) = Return None ->
     result (get_duckdb_connection Conn duckdb_connect execute_load home fs) = Return c ->
     fs_exists fs (fallback_path home) = Return true /\
     exists u, execute_load c (fallback_path home) = Return u).
Proof.
  split.
  - intros tag conn Hv Hc.
    rewrite get_extension_version_run in Hv. cbn [result] in Hv.
    destruct (result (_find_extension_binary (extensions_base_of home) fs))
      as [[p|]|e] eqn:Hd; try discriminate.
    injection Hv as Hn.
    destruct (find_extension_binary_some _ _ _ Hd) as (names & n & _ & _ & _ & -> & _).
    rewrite path_parent_join, path_name_join in Hn. subst n.
    now rewrite (connection_detected _ _ _ _ _ conn _ Hc Hd).
  - intros c Hv H.
    rewrite get_extension_version_run in Hv. cbn [result] in Hv.
    destruct (result (_find_extension_binary (extensions_base_of home) fs))
      as [[p|]|e] eqn:Hd; try discriminate.
    destruct duckdb_connect as [conn|e] eqn:Hc.
    2:{ rewrite (connection_connect_raises _ _ _ _ _ e eq_refl) in H. discriminate. }
    rewrite (connection_not_detected _ _ _ _ _ conn eq_refl Hd) in H.
    cbn [result] in H.
    destruct (fs_exists fs (fallback_path home)) as [[|]|e] eqn:Hfb; try discriminate.
    split; [reflexivity|].
    destruct (execute_load conn (fallback_path home)) as [u|e] eqn:Hl.
    + injection H as <-. eauto.
    + destruct e; discriminate.
Qed.

Lemma reported_version_is_loaded_witness :
  result (get_extension_version home_u (caseless_fs capital_tag)) = Return None /\
  result (get_duckdb_connection unit (Return tt) (fun _ _ => Return tt) home_u
            (caseless_fs capital_tag)) = Return tt /\
  fs_exists (caseless_fs capital_tag) (fallback_path home_u) = Return true.
Proof.
  repeat (split; [reflexivity|]).
  exact (proj1 (proj2 (reported_version_is_loaded unit (Return tt) (fun _ _ => Return tt)
                         home_u (caseless_fs capital_tag))
                  tt eq_refl eq_refl)).
Defined.

Lemma version_is_detected_tag_witness :
  result (get_extension_version home_u (posix_fs with_strangers)) = Return (Some "v1.9.0") /\
  result (_find_extension_binary (extensions_base_of home_u) (posix_fs with_strangers))
  = Return (Some (extensions_base_of home_u // "v1.9.0" // artifact_filename)).
Proof.
  split; [reflexivity|].
  exact (proj1 (proj1 (version_is_detected_tag home_u (posix_fs with_strangers)) "v1.9.0")
           eq_refl).
Defined.

Lemma check_agrees_with_version_witness :
  result (get_extension_version home_u (unreadable stps (posix_fs single_version)))
  = Raise (PermissionError stps) /\
  result (check_extension_installed home_u (unreadable stps (posix_fs single_version)))
  = Raise (PermissionError stps).
Proof.
  split; [reflexivity|].
  exact (proj2 (proj1 (proj2 (proj2
           (check_agrees_with_version home_u (unreadable stps (posix_fs single_version)))))
           (PermissionError stps)) eq_refl).
Defined.

(* ------------------------------------------------------------------ *)
(** ** test-extension.py: the counters and the exit status *)

Section SmokeTestFacts.

Variable os_path_exists : Path.t -> bool.
Variable os_path_getsize : Path.t -> outcome nat.
Variable Session : Type.
Variable Row : Type.
Variable connect_memory : outcome Session.
Variable fetch_scalar : Session -> string -> outcome pyvalue.
Variable load_extension : Session -> Path.t -> outcome unit.
Variable fetch_functions : Session -> outcome (list Row).
Variable script_dir : Path.t.




End SmokeTestFacts.

Section SmokeTestEndings.

Variable duckdb_importable : bool.
Variable os_path_exists : Path.t -> bool.
Variable os_path_getsize : Path.t -> outcome nat.
Variable Session : Type.
Variable Row : Type.
Variable connect_memory : outcome Session.
Variable fetch_scalar : Session -> string -> outcome pyvalue.
Variable load_extension : Session -> Path.t -> outcome unit.
Variable fetch_functions : Session -> outcome (list Row).
Variable script_dir : Path.t.


End SmokeTestEndings.


(* ------------------------------------------------------------------ *)
(** ** test-extension.py: how the script ends *)

Section SmokeTestConsole.

Variable duckdb_importable : bool.
Variable os_path_exists : Path.t -> bool.
Variable os_path_getsize : Path.t -> outcome nat.
Variable Session : Type.
Variable Row : Type.
Variable connect_memory : outcome Session.
Variable fetch_scalar : Session -> string -> outcome pyvalue.
Variable load_extension : Session -> Path.t -> outcome unit.
Variable fetch_functions : Session -> outcome (list Row).
Variable script_dir : Path.t.
Variable print_ : nat -> list shown -> outcome unit.
Variable print_row : Row -> outcome unit.

#[local] Set Warnings "-notation-for-abbreviation".
Local Notation binary := (built_extension_path script_dir).
Local Notation ending :=
  (test_extension os_path_exists os_path_getsize Session Row connect_memory
                  fetch_scalar load_extension fetch_functions script_dir
                  print_ print_row).
Local Notation loop := (run_tests_printing Session fetch_scalar print_).
Local Notation passes := (test_passes Session fetch_scalar).

(** Some [print] raised [e]. *)
Local Notation printed_raise e := (exists line args, print_ line args = Raise e).

Lemma say_elim (P : termination -> Prop) (line : nat) (args : list shown)
      (k : termination) :
  P k ->
  (forall e, print_ line args = Raise e -> P (Uncaught (CallFailed e))) ->
  P (say print_ line args k).
Proof.
  intros Hk He. unfold say. destruct (print_ line args) as [u|e]; auto.
Qed.

Lemma say_all_elim (P : termination -> Prop) (lines : list (nat * list shown))
      (k : termination) :
  P k ->
  (forall e, printed_raise e -> P (Uncaught (CallFailed e))) ->
  P (say_all print_ lines k).
Proof.
  intros Hk He. induction lines as [|[line args] lines IH]; cbn [say_all]; auto.
  apply say_elim; [exact IH|]. intros e H. apply He. eauto.
Qed.

Lemma attempt_returned (con : Session) (t : test_case) (ok : bool) :
  attempt Session fetch_scalar print_ con t = Return ok -> passes con t = ok.
Proof.
  unfold attempt, test_passes, verdict_line.
  destruct (fetch_scalar con (test_query t)) as [result|e]; [|discriminate].
  destruct (test_expected t);
    match goal with
    | |- context [if ?b then _ else _] => destruct b
    end;
    match goal with
    | |- context [print_ ?l ?a] => destruct (print_ l a)
    end; congruence.
Qed.

Lemma turn_returned (con : Session) (t : test_case) (p f p' f' : nat) :
  turn Session fetch_scalar print_ con t p f = Return (p', f') ->
  (p' = p + 1 /\ f' = f /\ passes con t = true)%nat \/ (p' = p /\ f' = f + 1)%nat.
Proof.
  unfold turn.
  destruct (attempt Session fetch_scalar print_ con t) as [[|]|e] eqn:Ha.
  - intros [= <- <-]. left. repeat split. now apply attempt_returned.
  - intros [= <- <-]. now right.
  - destruct (print_ 105 [ShownExn e]); [|discriminate].
    intros [= <- <-]. now right.
Qed.

Lemma turn_raised (con : Session) (t : test_case) (p f : nat) (e : exn) :
  turn Session fetch_scalar print_ con t p f = Raise e -> printed_raise e.
Proof.
  unfold turn.
  destruct (attempt Session fetch_scalar print_ con t) as [[|]|e0]; try discriminate.
  destruct (print_ 105 [ShownExn e0]) eqn:Hp; [discriminate|].
  intros [= <-]. eauto.
Qed.

(** A loop that comes to its end has counted every test once, and has
    counted a failure unless the test passed. *)
Lemma loop_returned (con : Session) (total : nat) (ts : list test_case) :
  forall i p f p' f',
    loop con total i ts p f = Return (p', f') ->
    (p' + f' = p + f + List.length ts)%nat /\
    (f <= f')%nat /\
    (f' = f -> forall t, In t ts -> passes con t = true).
Proof.
  induction ts as [|t ts IH]; intros i p f p' f'; cbn [run_tests_printing].
  - intros [= <- <-]. cbn [List.length]. repeat split; try lia. contradiction.
  - destruct (print_ 86 _); [|discriminate].
    destruct (turn Session fetch_scalar print_ con t p f) as [[p1 f1]|e] eqn:Ht;
      [|discriminate].
    destruct (print_ 107 []); [|discriminate].
    intros H. apply IH in H as (Hsum & Hle & Hall).
    apply turn_returned in Ht as [(-> & -> & Hpass)|(-> & ->)]; cbn [List.length].
    + repeat split; try lia. intros Hf x [<-|Hx]; auto.
    + repeat split; lia.
Qed.

Lemma loop_raised (con : Session) (total : nat) (ts : list test_case) :
  forall i p f e, loop con total i ts p f = Raise e -> printed_raise e.
Proof.
  induction ts as [|t ts IH]; intros i p f e; cbn [run_tests_printing];
    [discriminate|].
  destruct (print_ 86 _) eqn:H86; [|intros [= <-]; eauto].
  destruct (turn Session fetch_scalar print_ con t p f) as [[p1 f1]|e1] eqn:Ht.
  - destruct (print_ 107 []) eqn:H107; [|intros [= <-]; eauto].
    apply IH.
  - intros [= <-]. eapply turn_raised; eauto.
Qed.


Lemma summary_cases (P : termination -> Prop) (passed failed : nat) :
  (passed + failed <> 0)%nat ->
  (forall e, printed_raise e -> P (Uncaught (CallFailed e))) ->
  P (if (failed =? 0)%nat then Returns 0 else Returns 1) ->
  P (summary print_ passed failed).
Proof.
  intros Hsum Hprint Hend. unfold summary.
  apply say_all_elim; [|exact Hprint].
  destruct (passed + failed =? 0)%nat eqn:E; [apply Nat.eqb_eq in E; contradiction|].
  apply say_all_elim; [|exact Hprint].
  destruct (failed =? 0)%nat; (apply say_elim; [exact Hend|]);
    intros e He; apply Hprint; eauto.
Qed.

Lemma report_cases (P : termination -> Prop) (con : Session) (passed failed : nat) :
  (passed + failed <> 0)%nat ->
  (forall e, printed_raise e -> P (Uncaught (CallFailed e))) ->
  P (if (failed =? 0)%nat then Returns 0 else Returns 1) ->
  P (report Session Row fetch_functions print_ print_row con passed failed).
Proof.
  intros Hsum Hprint Hend. unfold report.
  apply say_all_elim; [|exact Hprint].
  destruct (list_functions Session Row fetch_functions print_ print_row con).
  - now apply summary_cases.
  - apply say_elim; [now apply summary_cases|].
    intros e' He'. apply Hprint. eauto.
Qed.

(** Every way the script can end, with what has happened by then. *)
Lemma test_extension_cases (P : termination -> Prop) :
  (forall e, printed_raise e -> P (Uncaught (CallFailed e))) ->
  (os_path_exists binary = false -> P (SystemExit 1)) ->
  (forall e, os_path_exists binary = true -> os_path_getsize binary = Raise e ->
             P (Uncaught (CallFailed e))) ->
  (forall size e,
     os_path_exists binary = true -> os_path_getsize binary = Return size ->
     connect_memory = Raise e -> P (Uncaught (CallFailed e))) ->
  (forall size con e,
     os_path_exists binary = true -> os_path_getsize binary = Return size ->
     connect_memory = Return con ->
     fetch_scalar con "SELECT version()" = Raise e -> P (Uncaught (CallFailed e))) ->
  (forall size con version,
     os_path_exists binary = true -> os_path_getsize binary = Return size ->
     connect_memory = Return con ->
     fetch_scalar con "SELECT version()" = Return version ->
     (exists e, load_extension con binary = Raise e) \/
     (exists e, print_ 47 [] = Raise e) ->
     P (SystemExit 1)) ->
  (forall size con version u passed failed,
     os_path_exists binary = true -> os_path_getsize binary = Return size ->
     connect_memory = Return con ->
     fetch_scalar con "SELECT version()" = Return version ->
     load_extension con binary = Return u ->
     loop con (List.length tests) 1 tests 0 0 = Return (passed, failed) ->
     P (if (failed =? 0)%nat then Returns 0 else Returns 1)) ->
  P ending.
Proof.
  intros Hprint Hmissing Hsize Hconn Hver Hload Hdone.
  unfold test_extension. cbv zeta.
  apply say_all_elim; [|exact Hprint].
  destruct (os_path_exists binary) eqn:Hex; cbn [negb].
  2:{ apply say_all_elim; [now apply Hmissing|exact Hprint]. }
  apply say_elim; [|intros e He; apply Hprint; eauto].
  destruct (os_path_getsize binary) as [size|e] eqn:Hsz; [|now apply Hsize].
  apply say_all_elim; [|exact Hprint].
  destruct connect_memory as [con|e] eqn:Hc; [|now apply (Hconn size)].
  destruct (fetch_scalar con "SELECT version()") as [version|e] eqn:Hv;
    [|now apply (Hver size con)].
  apply say_all_elim; [|exact Hprint].
  destruct (load_extension con binary) as [u|e] eqn:Hl.
  2:{ apply say_all_elim; [|exact Hprint].
      apply (Hload size con version); eauto. }
  destruct (print_ 47 []) as [u'|e] eqn:H47.
  2:{ apply say_all_elim; [|exact Hprint].
      apply (Hload size con version); eauto. }
  apply say_all_elim; [|exact Hprint].
  destruct (loop con (List.length tests) 1 tests 0 0) as [[passed failed]|e] eqn:Hloop.
  2:{ apply Hprint. eapply loop_raised; eauto. }
  apply report_cases; [|exact Hprint|now apply (Hdone size con version u passed)].
  apply loop_returned in Hloop as (Hsum & _). cbn in Hsum. lia.
Qed.


(** X14.  How the script can end.  It never divides by zero in the
    summary.  An exception escapes only from reading the size of the
    binary, from connecting, from the version query, or from a [print]:
    what a test query, the load or the catalog query raises never escapes
    as such.  [sys.exit] is reached with 1 only, for a missing binary or
    for a load that raised (or whose confirming line could not be
    printed).  A return value is 0 or 1 and is reached only after a load
    that returned.  On a console that takes every line, a missing binary
    and a load that raises both end in [sys.exit(1)] before any test runs. *)
Theorem smoke_test_endings :
  let p := built_extension_path script_dir in
  let ends := test_extension os_path_exists os_path_getsize Session Row connect_memory
                             fetch_scalar load_extension fetch_functions script_dir
                             print_ print_row in
  ends <> Uncaught ZeroDivisionError /\
  (forall e, ends = Uncaught (CallFailed e) ->
     os_path_getsize p = Raise e \/ connect_memory = Raise e \/
     (exists con, connect_memory = Return con /\
                  fetch_scalar con "SELECT version()" = Raise e) \/
     exists line args, print_ line args = Raise e) /\
  (forall code, ends = SystemExit code ->
     code = 1%nat /\
     (os_path_exists p = false \/
      exists con, connect_memory = Return con /\
                  ((exists e, load_extension con p = Raise e) \/
                   (exists e, print_ 47 [] = Raise e)))) /\
  (forall code, ends = Returns code ->
     (code = 0 \/ code = 1)%nat /\
     exists con u, connect_memory = Return con /\ load_extension con p = Return u) /\
  ((forall line args, print_ line args = Return tt) ->
   (os_path_exists p = false -> ends = SystemExit 1) /\
   (forall con size v e,
      os_path_exists p = true -> os_path_getsize p = Return size ->
      connect_memory = Return con ->
      fetch_scalar con "SELECT version()" = Return v ->
      load_extension con p = Raise e -> ends = SystemExit 1)).
Proof.
  intros p ends. subst p ends.
  split; [|split; [|split; [|split]]].
  - apply (test_extension_cases (fun t => t <> Uncaught ZeroDivisionError));
      intros; try discriminate.
    destruct (failed =? 0)%nat; discriminate.
  - apply (test_extension_cases
             (fun t => forall e, t = Uncaught (CallFailed e) -> _));
      intros; try discriminate.
    + injection H0 as <-. auto.
    + injection H1 as <-. auto.
    + injection H2 as <-. auto.
    + injection H3 as <-. right. right. left. eauto.
    + destruct (failed =? 0)%nat; discriminate.
  - apply (test_extension_cases (fun t => forall code, t = SystemExit code -> _));
      intros; try discriminate.
    + injection H0 as <-. auto.
    + injection H4 as <-. split; [reflexivity|]. right. eauto.
    + destruct (failed =? 0)%nat; discriminate.
  - apply (test_extension_cases (fun t => forall code, t = Returns code -> _));
      intros; try discriminate.
    destruct (failed =? 0)%nat; injection H5 as <-; split; eauto.
  - intros Hq. split.
    + intros Hex.
      apply (test_extension_cases (fun t => t = SystemExit 1)); intros; try congruence.
      * destruct H as (line & args & H). rewrite Hq in H. discriminate.
    + intros con size v e Hex Hsz Hc Hv Hl.
      apply (test_extension_cases (fun t => t = SystemExit 1)); intros; try congruence.
      * destruct H as (line & args & H). rewrite Hq in H. discriminate.
Qed.

End SmokeTestConsole.


Lemma smoke_test_endings_witness :
  test_extension (fun _ => true) (fun _ => Return 4096) unit unit (Return tt)
                 (fun _ => canned_answer)
                 (fun _ _ => Raise (IOException "not a valid extension"))
                 (fun _ => Return []) ["/"; "repo"]
                 (fun _ _ => Return tt) (fun _ => Return tt) = SystemExit 1.
Proof.
  exact (proj2 (proj2 (proj2 (proj2 (proj2
           (smoke_test_endings (fun _ => true) (fun _ => Return 4096) unit unit
              (Return tt) (fun _ => canned_answer)
              (fun _ _ => Raise (IOException "not a valid extension"))
              (fun _ => Return []) ["/"; "repo"]
              (fun _ _ => Return tt) (fun _ => Return tt)))))
           (fun _ _ => eq_refl))
           tt 4096 (PyStr "v1.4.3") (IOException "not a valid extension")
           eq_refl eq_refl eq_refl eq_refl eq_refl).
Defined.

(** The script on a console whose reader has gone: everything the status 0
    asks for holds, and the script ends with the exception of its second
    [print]. *)
Example run_console_closed :
  test_extension (fun _ => true) (fun _ => Return 4096) unit unit (Return tt)
                 (fun _ => canned_answer) (fun _ _ => Return tt) (fun _ => Return [])
                 ["/"; "repo"] console_closed (fun _ => Return tt)
  = Uncaught (CallFailed (OSError 32)) /\
  exit_status true (fun _ => true) (fun _ => Return 4096) unit unit (Return tt)
              (fun _ => canned_answer) (fun _ _ => Return tt) (fun _ => Return [])
              ["/"; "repo"] console_closed (fun _ => Return tt) = 1%nat.
Proof. split; reflexivity. Qed.

(** A test whose query returned the expected value is counted as failed
    when the line that says so cannot be printed and the line of the
    handler can. *)
Example run_console_without_line_99 :
  run_tests_printing unit (fun _ => canned_answer) console_without_line_99
                     tt (List.length tests) 1 tests 0 0 = Return (1, 3)%nat /\
  run_tests unit (fun _ => canned_answer) tt tests = (4, 0)%nat.
Proof. split; reflexivity. Qed.
